(** * Gemstone price prediction: the request handler and its client

    A shallow embedding of [src/app/main.py] (the FastAPI application) and of
    the option lists of [src/streamlit_app.py] (the interactive client).

    Python values are embedded as follows.
    - [float] is the kernel's binary64 type, which is what a Python [float] is.
    - [str] is [string]; a [dict] literal is an association list in insertion
      order.
    - A call that may raise returns an [outcome]; calls are threaded through
      the process state in the monad [M], and the state written before an
      exception is raised is kept, as in Python.
    - [Raise e] is the raise of an instance of [Exception], the class that
      the handler's [except] clause names; [RaiseBase e] is the raise of an
      exception that derives from [BaseException] only ([SystemExit],
      [KeyboardInterrupt], [GeneratorExit]), which [except Exception] does
      not catch and a bare [except] does.
    - An exception object [e] is one whose [str(e)] returns; [exn_str e] is
      that string. *)

From Stdlib Require Import ZArith Ascii String List.
From Stdlib Require Import PrimFloat FloatOps SpecFloat.
From stdpp Require Import base strings list gmap pretty.

Set Warnings "-inexact-float,-register-all,-notation-for-abbreviation".

Local Open Scope string_scope.

(** ** Python values *)

Inductive pyval : Type :=
| PyStr (s : string)
| PyFloat (v : float)
| PyList (l : list pyval)
| PyDict (d : list (string * pyval)).

Definition pydict : Type := list (string * pyval).

(** [d.get(k)]: the value bound to [k], if any. *)
Fixpoint dict_get (k : string) (d : pydict) : option pyval :=
  match d with
  | [] => None
  | (k', v) :: d' => if String.eqb k k' then Some v else dict_get k d'
  end.

Definition dict_keys (d : pydict) : list string := d.*1.

(** The strings of a list value, as a client reading the JSON sees them. *)
Definition pylist_strings (v : pyval) : list string :=
  match v with
  | PyList l => omap (fun e => match e with PyStr s => Some s | _ => None end) l
  | _ => []
  end.

(** ** Exceptions and the process monad *)

(** An exception object: the name of its class and [str(e)]. *)
Record exn : Type := Exn { exn_type : string; exn_str : string }.

Inductive outcome (A : Type) : Type :=
| Ret (a : A)
| Raise (e : exn)
| RaiseBase (e : exn).
Arguments Ret {A} a.
Arguments Raise {A} e.
Arguments RaiseBase {A} e.

Definition M (W A : Type) : Type := W -> outcome A * W.

Definition ret {W A} (a : A) : M W A := fun w => (Ret a, w).

Definition raise {W A} (e : exn) : M W A := fun w => (Raise e, w).

Definition bind {W A B} (c : M W A) (k : A -> M W B) : M W B :=
  fun w =>
    match c w with
    | (Ret a, w') => k a w'
    | (Raise e, w') => (Raise e, w')
    | (RaiseBase e, w') => (RaiseBase e, w')
    end.

(** [try: body / except Exception as e: handler(e)]: an exception that does
    not derive from [Exception] is not caught. *)
Definition try_except {W A} (body : M W A) (handler : exn -> M W A) : M W A :=
  fun w =>
    match body w with
    | (Ret a, w') => (Ret a, w')
    | (Raise e, w') => handler e w'
    | (RaiseBase e, w') => (RaiseBase e, w')
    end.

(** [try: body / except: handler]: the bare clause catches everything. *)
Definition try_except_bare {W A} (body : M W A) (handler : M W A) : M W A :=
  fun w =>
    match body w with
    | (Ret a, w') => (Ret a, w')
    | (Raise _, w') => handler w'
    | (RaiseBase _, w') => handler w'
    end.

Notation "x <- c ;; k" := (bind c (fun x => k))
  (at level 100, c at next level, right associativity).

(** [try: body / except C as e: handler(e)] for a class [C] other than
    [Exception]: an exception that is not an instance of [C] propagates. *)
Definition try_except_class {W A} (isinstance_C : exn -> bool)
    (body : M W A) (handler : exn -> M W A) : M W A :=
  fun w =>
    match body w with
    | (Ret a, w') => (Ret a, w')
    | (Raise e, w') => if isinstance_C e then handler e w' else (Raise e, w')
    | (RaiseBase e, w') => (RaiseBase e, w')
    end.

(** An expression that touches no state. *)
Definition pure {W A} (o : outcome A) : M W A := fun w => (o, w).

(** ** Builtins used by the handler on plain Python values *)

(** [pred[0]] on a list. *)
Definition list_getitem0 {W A} (l : list A) : M W A :=
  match l with
  | a :: _ => ret a
  | [] => raise (Exn "IndexError" "list index out of range")
  end.

(** The integer nearest to [a * 2^e], ties to the even one. *)
Definition round_half_even (a e : Z) : Z :=
  if (0 <=? e)%Z then Z.shiftl a e
  else
    let d := Z.shiftl 1 (- e) in
    let q := (a / d)%Z in
    match (2 * (a mod d) ?= d)%Z with
    | Lt => q
    | Gt => (q + 1)%Z
    | Eq => if Z.even q then q else (q + 1)%Z
    end.

(** [round(v, 2)] on a float: the exact value of [v] is rounded to two
    decimals, ties to even, and the float nearest to that decimal is returned;
    zeros, infinities and nan round to themselves. *)
Definition float_round2 (v : float) : float :=
  match Prim2SF v with
  | S754_finite s m e =>
      match round_half_even (Z.pos m * 100) e with
      | Z.pos n =>
          SF2Prim (SFdiv prec emax (S754_finite s n 0) (S754_finite false 100 0))
      | _ => SF2Prim (S754_zero s)
      end
  | _ => v
  end.

(** [n] is the integer nearest to [a * 2^e], the even one of the two when
    [a * 2^e] lies halfway between them. *)
Definition nearest_ties_even (a e n : Z) : Prop :=
  if (0 <=? e)%Z then n = (a * 2 ^ e)%Z
  else (2 * Z.abs (a - n * 2 ^ (- e)) <= 2 ^ (- e))%Z
       /\ ((2 * Z.abs (a - n * 2 ^ (- e)) = 2 ^ (- e))%Z -> Z.even n = true).

(** The integer [n] with the sign [s], as a binary float specification. *)
Definition signed_integer (s : bool) (n : Z) : spec_float :=
  match n with
  | Z.pos p => S754_finite s p 0
  | _ => S754_zero s
  end.

(** [price] is [v] rounded to two decimals: for a finite [v] of magnitude
    [m * 2^e] there is an integer [n], the nearest to [100 * m * 2^e] with
    ties to even, such that [price] is the binary64 quotient of [n] by 100
    (the float nearest to [n / 100]) with the sign of [v]; zeros, infinities
    and nan are kept. *)
Definition rounded_to_cents (v price : float) : Prop :=
  match Prim2SF v with
  | S754_finite s m e =>
      exists n : Z,
        (0 <= n)%Z
        /\ nearest_ties_even (Z.pos m * 100) e n
        /\ price = SF2Prim (SFdiv prec emax (signed_integer s n)
                                           (S754_finite false 100 0))
  | _ => price = v
  end.

(** [v[k]] for a string key [k]. *)
Definition subscript (v : pyval) (k : string) : outcome pyval :=
  match v with
  | PyDict d =>
      match dict_get k d with
      | Some a => Ret a
      | None => Raise (Exn "KeyError" ("'" +:+ k +:+ "'"))
      end
  | PyList _ =>
      Raise (Exn "TypeError" "list indices must be integers or slices, not str")
  | PyStr _ => Raise (Exn "TypeError" "string indices must be integers, not 'str'")
  | PyFloat _ => Raise (Exn "TypeError" "'float' object is not subscriptable")
  end.

(** [v == s] for a string literal [s]. *)
Definition eq_str (v : pyval) (s : string) : bool :=
  match v with
  | PyStr s' => String.eqb s' s
  | _ => false
  end.

(** The digits of a number, units first, with a comma after every third
    digit that has a digit above it. *)
Fixpoint group_thousands (digits : list ascii) (k : nat) : list ascii :=
  match digits with
  | [] => []
  | d :: rest =>
      match k with
      | 3 => ","%char :: d :: group_thousands rest 1
      | _ => d :: group_thousands rest (S k)
      end
  end.

(** A non-negative integer in decimal with thousands separators. *)
Definition thousands (n : Z) : string :=
  string_of_list_ascii
    (rev (group_thousands (rev (list_ascii_of_string (pretty n))) 0)).

(** [format(v, ",.2f")] on a float: the exact value rounded to two decimals,
    ties to even, with thousands separators; the sign of a negative value is
    kept when it rounds to zero. *)
Definition format_comma_2f (v : float) : string :=
  match Prim2SF v with
  | S754_nan => "nan"
  | S754_infinity s => if s then "-inf" else "inf"
  | S754_zero s => if s then "-0.00" else "0.00"
  | S754_finite s m e =>
      let n := round_half_even (Z.pos m * 100) e in
      (if s then "-" else "")
      +:+ thousands (n / 100) +:+ "."
      +:+ (if (n mod 100 <? 10)%Z then "0" else "") +:+ pretty (n mod 100)%Z
  end.

(** [f"{v:,.2f}"] for any value: only numbers accept the format. *)
Definition format_price (v : pyval) : outcome string :=
  match v with
  | PyFloat f => Ret (format_comma_2f f)
  | PyStr _ =>
      Raise (Exn "ValueError" "Unknown format code 'f' for object of type 'str'")
  | PyList _ =>
      Raise (Exn "TypeError" "unsupported format string passed to list.__format__")
  | PyDict _ =>
      Raise (Exn "TypeError" "unsupported format string passed to dict.__format__")
  end.

(** ** [src/app/main.py] *)

(** [class GemstoneData(BaseModel)]: six floats and three strings; any string
    is accepted for the three categorical fields. *)
Record GemstoneData : Type := {
  carat : float;
  depth : float;
  table : float;
  x : float;
  y : float;
  z : float;
  cut : string;
  color : string;
  clarity : string
}.

(** [GemstoneData.Config.schema_extra["example"]]. *)
Definition schema_extra_example : GemstoneData := {|
  carat := 1.5; depth := 62.5; table := 58.0;
  x := 7.2; y := 7.1; z := 4.5;
  cut := "Ideal"; color := "G"; clarity := "VS1"
|}.

(** [gemstone_data.dict()]: the nine fields in declaration order. *)
Definition GemstoneData_dict (g : GemstoneData) : pydict :=
  [ ("carat", PyFloat (carat g)); ("depth", PyFloat (depth g));
    ("table", PyFloat (table g)); ("x", PyFloat (x g)); ("y", PyFloat (y g));
    ("z", PyFloat (z g)); ("cut", PyStr (cut g)); ("color", PyStr (color g));
    ("clarity", PyStr (clarity g)) ].

(** The response of the [except] branch. *)
Definition error_response (e : exn) : pydict :=
  [ ("status", PyStr "error");
    ("message", PyStr ("Prediction failed: " +:+ exn_str e)) ].

Section predict_price.
(** The process state the calls below may read and write. *)
Context {W : Type}.

(** [CustomData] and [PredictPipeline] are imported from
    [src.pipeline.predict_pipeline]; the handler is embedded over any
    implementation of the two classes.  [pred[0]] and [round(_, 2)] dispatch
    on the types that [predict] returns, so they are operations of the
    implementation as well. *)
Context {CustomDataT DataFrame PipelineT Pred Elem : Type}.
Variable CustomData :
  float -> float -> float -> float -> float -> float ->
  string -> string -> string -> M W CustomDataT.
Variable get_data_as_dataframe : CustomDataT -> M W DataFrame.
Variable PredictPipeline : M W PipelineT.
Variable predict : PipelineT -> DataFrame -> M W Pred.
Variable getitem0 : Pred -> M W Elem.
Variable round2 : Elem -> M W pyval.

(** The body of the [try] block (lines 68-92). *)
Definition predict_price_try (gemstone_data : GemstoneData) : M W pydict :=
  data <- CustomData
            (carat gemstone_data) (depth gemstone_data) (table gemstone_data)
            (x gemstone_data) (y gemstone_data) (z gemstone_data)
            (cut gemstone_data) (color gemstone_data) (clarity gemstone_data) ;;
  pred_df <- get_data_as_dataframe data ;;
  predict_pipeline <- PredictPipeline ;;
  pred <- predict predict_pipeline pred_df ;;
  pred0 <- getitem0 pred ;;
  price <- round2 pred0 ;;
  ret [ ("status", PyStr "success");
        ("predicted_price", price);
        ("input_data", PyDict (GemstoneData_dict gemstone_data)) ].

(** [async def predict_price(gemstone_data)] (lines 53-98). *)
Definition predict_price (gemstone_data : GemstoneData) : M W pydict :=
  try_except (predict_price_try gemstone_data)
             (fun e => ret (error_response e)).
End predict_price.

(** [async def get_options()] (lines 111-117). *)
Definition get_options : pydict :=
  [ ("cut", PyList [PyStr "Fair"; PyStr "Good"; PyStr "Very Good";
                    PyStr "Premium"; PyStr "Ideal"]);
    ("color", PyList [PyStr "D"; PyStr "E"; PyStr "F"; PyStr "G"; PyStr "H";
                      PyStr "I"; PyStr "J"]);
    ("clarity", PyList [PyStr "I1"; PyStr "SI2"; PyStr "SI1"; PyStr "VS2";
                        PyStr "VS1"; PyStr "VVS2"; PyStr "VVS1"; PyStr "IF"]) ].

(** The options the API declares for one categorical field. *)
Definition declared_options (field : string) : list string :=
  match dict_get field get_options with
  | Some v => pylist_strings v
  | None => []
  end.

(** [async def root()] (lines 101-103). *)
Definition root : pydict :=
  [ ("message", PyStr "Gemstone Price Prediction API is running") ].

(** [async def health_check()] (lines 105-107). *)
Definition health_check : pydict :=
  [ ("status", PyStr "healthy"); ("message", PyStr "API is operational") ].

Inductive http_method : Type := GET | POST.

(** The routes that the decorators register on [app] (lines 52, 101, 105,
    110), in the order of the file. *)
Definition routes : list (http_method * string) :=
  [ (POST, "/predict"); (GET, "/"); (GET, "/health"); (GET, "/options") ].

(** The port of [uvicorn.run] (line 120). *)
Definition uvicorn_port : Z := 8000.

(** What a [GET] route answers. *)
Definition get_endpoint (path : string) : option pydict :=
  if String.eqb path "/" then Some root
  else if String.eqb path "/health" then Some health_check
  else if String.eqb path "/options" then Some get_options
  else None.

(** ** [src/streamlit_app.py] *)

Module streamlit_app.

(** The option lists of the three [st.selectbox] calls (lines 78-80). *)
Definition cut_options : list string :=
  ["Ideal"; "Premium"; "Very Good"; "Good"; "Fair"].
Definition color_options : list string :=
  ["D"; "E"; "F"; "G"; "H"; "I"; "J"].
Definition clarity_options : list string :=
  ["IF"; "VVS1"; "VVS2"; "VS1"; "VS2"; "SI1"; "SI2"; "I1"].

(** The widget whose selection is sent under the key [field] of
    [input_data] (lines 99-109). *)
Definition selectbox_options (field : string) : list string :=
  if String.eqb field "cut" then cut_options
  else if String.eqb field "color" then color_options
  else if String.eqb field "clarity" then clarity_options
  else [].

(** [API_URL] (line 44). *)
Definition API_URL : string := "http://localhost:8000".

(** A [requests.Response]: its status code and its [json()] method. *)
Record Response (W : Type) : Type := {
  status_code : Z;
  json : M W pyval
}.
Arguments status_code {W} r.
Arguments json {W} r.

(** Where a Streamlit call draws. *)
Inductive container : Type :=
| Page
| Column (i : nat)
| Expander (label : string).

(** The Streamlit calls of the result display. *)
Inductive st_call : Type :=
| st_markdown (body : string) (unsafe_allow_html : bool)
| st_columns (spec : list nat)
| st_subheader (body : string)
| st_json (body : pyval)
| st_success (body : string)
| st_error (body : string)
| st_expander (label : string).

(** The calls made so far, oldest first. *)
Definition ui : Type := list (container * st_call).

Definition emit (c : container) (call : st_call) : M ui unit :=
  fun log => (Ret tt, (log ++ [(c, call)])%list).

Definition double_quote : string := String "034"%char EmptyString.

Section client.
Context {W : Type}.
(** [requests.post(url, json=data)] and [requests.get(url)]. *)
Variable requests_post : string -> pydict -> M W (Response W).
Variable requests_get : string -> M W (Response W).
(** [isinstance(e, requests.exceptions.RequestException)]. *)
Variable is_RequestException : exn -> bool.
(** [str(v)] for a value [v] that is not a string. *)
Variable str_other : pyval -> string.

(** [def predict_price(data)] (lines 46-55). *)
Definition predict_price (data : pydict) : M W pyval :=
  try_except_class is_RequestException
    (response <- requests_post (API_URL +:+ "/predict") data ;;
     if (status_code response =? 200)%Z then json response
     else ret (PyDict [ ("status", PyStr "error");
                        ("message",
                         PyStr ("API Error: " +:+ pretty (status_code response))) ]))
    (fun e => ret (PyDict [ ("status", PyStr "error");
                            ("message",
                             PyStr ("Connection error: " +:+ exn_str e)) ])).

(** The API status check of [main] (lines 86-94); the bare [except] catches
    everything. *)
Definition api_status : M W st_call :=
  try_except_bare
    (response <- requests_get (API_URL +:+ "/health") ;;
     if (status_code response =? 200)%Z
     then ret (st_success "✅ API Connected")
     else ret (st_error "❌ API Failed"))
    (ret (st_error "❌ No Connection")).

(** [input_data] as [main] builds it from the nine widgets (lines 99-109). *)
Definition input_data (carat depth table x y z : float)
    (cut color clarity : string) : pydict :=
  [ ("carat", PyFloat carat); ("depth", PyFloat depth); ("table", PyFloat table);
    ("x", PyFloat x); ("y", PyFloat y); ("z", PyFloat z);
    ("cut", PyStr cut); ("color", PyStr color); ("clarity", PyStr clarity) ].

(** [f"{v}"]. *)
Definition fstr (v : pyval) : string :=
  match v with
  | PyStr s => s
  | _ => str_other v
  end.

(** The display of the result in [main] (lines 116-137). *)
Definition show_result (data : pydict) (result : pyval) : M ui unit :=
  status <- pure (subscript result "status") ;;
  if eq_str status "success" then
    _ <- emit Page (st_markdown "---" false) ;;
    _ <- emit Page (st_columns [1; 1]) ;;
    _ <- emit (Column 0) (st_subheader "📊 Input Summary") ;;
    _ <- emit (Column 0) (st_json (PyDict data)) ;;
    _ <- emit (Column 1) (st_subheader "💰 Prediction Result") ;;
    price <- pure (subscript result "predicted_price") ;;
    text <- pure (format_price price) ;;
    _ <- emit (Column 1)
           (st_markdown ("<div class=" +:+ double_quote +:+ "price-result"
                         +:+ double_quote +:+ ">$" +:+ text +:+ "</div>") true) ;;
    _ <- emit (Column 1) (st_success "Price prediction completed successfully!") ;;
    _ <- emit Page (st_markdown "</div>" true) ;;
    _ <- emit Page (st_expander "📋 View Raw API Response") ;;
    emit (Expander "📋 View Raw API Response") (st_json result)
  else
    message <- pure (subscript result "message") ;;
    emit Page (st_error ("❌ " +:+ fstr message)).

(** The body of [if st.button(...)] in [main] (lines 97-137): the request,
    then the display; the state is the network's and the calls drawn. *)
Definition on_predict (carat depth table x y z : float)
    (cut color clarity : string) : M (W * ui) unit :=
  fun '(w, log) =>
    match predict_price (input_data carat depth table x y z cut color clarity) w with
    | (Ret result, w') =>
        match show_result (input_data carat depth table x y z cut color clarity)
                          result log with
        | (o, log') => (o, (w', log'))
        end
    | (Raise e, w') => (Raise e, (w', log))
    | (RaiseBase e, w') => (RaiseBase e, (w', log))
    end.

End client.

End streamlit_app.

(** ** Stand-ins for the two imported classes

    A stateless implementation whose [predict] has a fixed outcome, used to
    run the handler on concrete requests. *)

Module double.

Definition CustomData (carat depth table x y z : float)
    (cut color clarity : string) : M unit GemstoneData :=
  ret (Build_GemstoneData carat depth table x y z cut color clarity).

Definition get_data_as_dataframe (data : GemstoneData) : M unit (list GemstoneData) :=
  ret [data].

Definition PredictPipeline : M unit unit := ret tt.

Definition predict (result : outcome (list float)) (_ : unit)
    (_ : list GemstoneData) : M unit (list float) :=
  fun w => (result, w).

Definition round2 (v : float) : M unit pyval := ret (PyFloat (float_round2 v)).

(** The handler of [main.py] over this implementation. *)
Definition handler (result : outcome (list float)) : GemstoneData -> M unit pydict :=
  predict_price CustomData get_data_as_dataframe PredictPipeline
                (predict result) list_getitem0 round2.

End double.

(** ** Stand-ins for the network of the client

    A [requests] whose [post] and [get] have a fixed outcome, used to run the
    client on concrete exchanges. *)

Module client_double.

(** A response with the given status code whose [json()] has the given
    outcome. *)
Definition response (code : Z) (body : outcome pyval) : streamlit_app.Response unit :=
  {| streamlit_app.status_code := code; streamlit_app.json := pure body |}.

Definition requests_post (result : outcome (streamlit_app.Response unit))
    (_ : string) (_ : pydict) : M unit (streamlit_app.Response unit) :=
  pure result.

Definition requests_get (result : outcome (streamlit_app.Response unit))
    (_ : string) : M unit (streamlit_app.Response unit) :=
  pure result.

(** Some of the classes of [requests.exceptions]. *)
Definition is_RequestException (e : exn) : bool :=
  bool_decide (exn_type e ∈ ["RequestException"; "ConnectionError"; "Timeout";
                             "HTTPError"; "JSONDecodeError"]).

Definition str_other (_ : pyval) : string := "<value>".

End client_double.

(** ** A network that records the requests made to it

    [requests.post] and [requests.get] that append the method and the URL of
    each call to the state and answer as the given function says. *)

Module recorder.

Definition respond (answer : outcome (Z * outcome pyval))
  : outcome (streamlit_app.Response (list (http_method * string))) :=
  match answer with
  | Ret (code, body) =>
      Ret {| streamlit_app.status_code := code; streamlit_app.json := pure body |}
  | Raise e => Raise e
  | RaiseBase e => RaiseBase e
  end.

Definition requests_post (answer : string -> pydict -> outcome (Z * outcome pyval))
    (url : string) (data : pydict)
  : M (list (http_method * string))
      (streamlit_app.Response (list (http_method * string))) :=
  fun made => (respond (answer url data), (made ++ [(POST, url)])%list).

Definition requests_get (answer : string -> outcome (Z * outcome pyval))
    (url : string)
  : M (list (http_method * string))
      (streamlit_app.Response (list (http_method * string))) :=
  fun made => (respond (answer url), (made ++ [(GET, url)])%list).

End recorder.

(** ** The inference pipeline, from its specification

    [src/pipeline/predict_pipeline.py] is imported by [main.py] but is not among
    the sources; the module below follows sections 3, 4 and 7 of the
    specification. *)

Module predict_pipeline.

(** Modelled from the spec: the error taxonomy of section 7, raised by the
    missing module [src.pipeline.predict_pipeline]. *)
Inductive error_kind : Type :=
| InvalidInputError
| UnknownCategoryError
| ArtifactLoadError
| InferenceError.

(** Modelled from the spec: the class name of each error kind. *)
Definition kind_name (k : error_kind) : string :=
  match k with
  | InvalidInputError => "InvalidInputError"
  | UnknownCategoryError => "UnknownCategoryError"
  | ArtifactLoadError => "ArtifactLoadError"
  | InferenceError => "InferenceError"
  end.

(** Modelled from the spec: an exception of the given kind. *)
Definition error (k : error_kind) (msg : string) : exn := Exn (kind_name k) msg.


(** Modelled from the spec: the Raw Record of section 3, the object that the
    missing class [CustomData] holds. *)
Record RawRecord : Type := {
  carat : float;
  depth : float;
  table : float;
  x : float;
  y : float;
  z : float;
  cut : string;
  color : string;
  clarity : string
}.

(** Modelled from the spec: a numeric field is finite and non-negative
    (invariant of section 3). *)
Definition admissible (v : float) : bool := is_finite v && (0 <=? v)%float.

(** Modelled from the spec: the three categorical fields are members of their
    enumerated sets (invariant of section 3); the sets are the ones the API
    declares. *)
Definition categories_declared (r : RawRecord) : bool :=
  bool_decide (cut r ∈ declared_options "cut")
  && bool_decide (color r ∈ declared_options "color")
  && bool_decide (clarity r ∈ declared_options "clarity").

(** Modelled from the spec: the input constraints of the Feature Encoder
    (section 4.1) with the error of section 7 for each violation. *)
Definition validate (r : RawRecord) : outcome unit :=
  if negb (forallb admissible [carat r; depth r; table r; x r; y r; z r]) then
    Raise (error InvalidInputError "numeric field is not finite and non-negative")
  else if negb (categories_declared r) then
    Raise (error UnknownCategoryError "categorical field outside its enumerated set")
  else Ret tt.

(** Modelled from the spec: the nine columns of a Raw Record. *)
Inductive column : Type :=
| Carat | Depth | Table | X | Y | Z | Cut | Color | Clarity.

(** Modelled from the spec: the Encoder Artifact of section 3: the column
    order fixed at training time, the stored mapping of each categorical
    column and the scaling of each numeric column. *)
Record EncoderArtifact : Type := {
  columns : list column;
  category_code : column -> string -> option (list float);
  scale : column -> float -> float
}.

(** Modelled from the spec: the Model Artifact of section 3, a function from
    a Feature Vector to a price whose invocation may raise. *)
Definition ModelArtifact : Type := list float -> outcome float.

(** Modelled from the spec: one column of the Feature Vector (section 4.1);
    a category that the stored mapping has not seen fails. *)
Definition encode_column (enc : EncoderArtifact) (r : RawRecord) (c : column)
  : outcome (list float) :=
  let numeric v := Ret [scale enc c v] in
  let categorical s :=
    match category_code enc c s with
    | Some code => Ret code
    | None => Raise (error UnknownCategoryError ("unseen category: " +:+ s))
    end in
  match c with
  | Carat => numeric (carat r)
  | Depth => numeric (depth r)
  | Table => numeric (table r)
  | X => numeric (x r)
  | Y => numeric (y r)
  | Z => numeric (z r)
  | Cut => categorical (cut r)
  | Color => categorical (color r)
  | Clarity => categorical (clarity r)
  end.

(** Modelled from the spec: the columns in the given order. *)
Fixpoint encode_columns (enc : EncoderArtifact) (r : RawRecord) (cs : list column)
  : outcome (list float) :=
  match cs with
  | [] => Ret []
  | c :: cs' =>
      match encode_column enc r c with
      | Ret v =>
          match encode_columns enc r cs' with
          | Ret vs => Ret (v ++ vs)%list
          | Raise e => Raise e
          | RaiseBase e => RaiseBase e
          end
      | Raise e => Raise e
      | RaiseBase e => RaiseBase e
      end
  end.

(** Modelled from the spec: [encode(record) -> FeatureVector] of section 4.1,
    a pure function of the record and the Encoder Artifact. *)
Definition encode (enc : EncoderArtifact) (r : RawRecord) : outcome (list float) :=
  match validate r with
  | Ret _ => encode_columns enc r (columns enc)
  | Raise e => Raise e
  | RaiseBase e => RaiseBase e
  end.

(** Modelled from the spec: durable artifact storage; [None] is an artifact
    that is missing or unreadable. *)
Record storage : Type := {
  stored_model : option ModelArtifact;
  stored_encoder : option EncoderArtifact
}.

(** Modelled from the spec: the process state of section 4.2: the storage,
    the handle ([None] is Unloaded, [Some] is Loaded) and the number of reads
    of each artifact from storage so far. *)
Record world : Type := {
  durable : storage;
  handle : option (ModelArtifact * EncoderArtifact);
  model_reads : nat;
  encoder_reads : nat
}.

(** Modelled from the spec: the state of a process that has just started. *)
Definition boot (s : storage) : world :=
  {| durable := s; handle := None; model_reads := 0; encoder_reads := 0 |}.

(** Modelled from the spec: reading the Model Artifact from storage. *)
Definition read_model : M world ModelArtifact := fun w =>
  match stored_model (durable w) with
  | Some m =>
      (Ret m, {| durable := durable w; handle := handle w;
                 model_reads := S (model_reads w);
                 encoder_reads := encoder_reads w |})
  | None =>
      (Raise (error ArtifactLoadError "model artifact missing or unreadable"), w)
  end.

(** Modelled from the spec: reading the Encoder Artifact from storage. *)
Definition read_encoder : M world EncoderArtifact := fun w =>
  match stored_encoder (durable w) with
  | Some enc =>
      (Ret enc, {| durable := durable w; handle := handle w;
                   model_reads := model_reads w;
                   encoder_reads := S (encoder_reads w) |})
  | None =>
      (Raise (error ArtifactLoadError "encoder artifact missing or unreadable"), w)
  end.

(** Modelled from the spec: the transition Unloaded -> Loaded. *)
Definition set_handle (a : ModelArtifact * EncoderArtifact) : M world unit := fun w =>
  (Ret tt, {| durable := durable w; handle := Some a;
              model_reads := model_reads w;
              encoder_reads := encoder_reads w |}).

(** Modelled from the spec: acquisition on first use (section 4.2); a failed
    acquisition leaves the component Unloaded. *)
Definition acquire : M world (ModelArtifact * EncoderArtifact) := fun w =>
  match handle w with
  | Some a => (Ret a, w)
  | None =>
      (m <- read_model ;;
       enc <- read_encoder ;;
       _ <- set_handle (m, enc) ;;
       ret (m, enc)) w
  end.


(** Modelled from the spec: the result of a pure computation. *)
Definition lift {A} (o : outcome A) : M world A := fun w => (o, w).

(** Modelled from the spec: invoking the model; what it raises is reported
    verbatim as an [InferenceError]. *)
Definition invoke (m : ModelArtifact) (fv : list float) : outcome float :=
  match m fv with
  | Ret price => Ret price
  | Raise e => Raise (error InferenceError (exn_str e))
  | RaiseBase e => RaiseBase e
  end.

(** Modelled from the spec: encoding and invocation with the artifacts [a];
    the model's output is returned as it is. *)
Definition infer (a : ModelArtifact * EncoderArtifact) (r : RawRecord) : outcome float :=
  match encode a.2 r with
  | Ret fv => invoke a.1 fv
  | Raise e => Raise e
  | RaiseBase e => RaiseBase e
  end.

(** Modelled from the spec: [predict(record) -> float] of section 4.2:
    acquire the artifacts, encode, invoke the model, return its raw output. *)
Definition predict_record (r : RawRecord) : M world float :=
  a <- acquire ;;
  fv <- lift (encode a.2 r) ;;
  lift (invoke a.1 fv).

(** Modelled from the spec: the constructor of the missing class
    [CustomData], as [main.py] calls it. *)
Definition CustomData (carat depth table x y z : float)
    (cut color clarity : string) : M world RawRecord :=
  ret (Build_RawRecord carat depth table x y z cut color clarity).

(** Modelled from the spec: [CustomData.get_data_as_dataframe], a frame of
    one row. *)
Definition get_data_as_dataframe (data : RawRecord) : M world (list RawRecord) :=
  ret [data].

(** Modelled from the spec: the constructor of the missing class
    [PredictPipeline]; the artifacts belong to the process, not to the
    object. *)
Definition PredictPipeline : M world unit := ret tt.

(** Modelled from the spec: [PredictPipeline.predict], one prediction for
    each row of the frame. *)
Fixpoint predict (self : unit) (df : list RawRecord) : M world (list float) :=
  match df with
  | [] => ret []
  | r :: rows =>
      price <- predict_record r ;;
      prices <- predict self rows ;;
      ret (price :: prices)
  end.

(** Modelled from the spec: [round] on the floats that [predict] returns. *)
Definition round2 (v : float) : M world pyval := ret (PyFloat (float_round2 v)).

End predict_pipeline.

(** The handler of [main.py] over the specified pipeline. *)
Definition app_predict_price : GemstoneData -> M predict_pipeline.world pydict :=
  predict_price predict_pipeline.CustomData predict_pipeline.get_data_as_dataframe
                predict_pipeline.PredictPipeline predict_pipeline.predict
                list_getitem0 predict_pipeline.round2.

(** The record that the handler hands to the pipeline. *)
Definition raw_record (g : GemstoneData) : predict_pipeline.RawRecord :=
  predict_pipeline.Build_RawRecord
    (carat g) (depth g) (table g) (x g) (y g) (z g) (cut g) (color g) (clarity g).

(** The process state after a sequence of requests has been served. *)
Fixpoint serve (requests : list GemstoneData) (w : predict_pipeline.world)
  : predict_pipeline.world :=
  match requests with
  | [] => w
  | g :: rest => serve rest (app_predict_price g w).2
  end.

(** An artifact pair for the examples: ordinal codes, unit scaling and a
    linear model over nine features. *)
Definition demo_encoder : predict_pipeline.EncoderArtifact := {|
  predict_pipeline.columns :=
    [predict_pipeline.Carat; predict_pipeline.Depth; predict_pipeline.Table;
     predict_pipeline.X; predict_pipeline.Y; predict_pipeline.Z;
     predict_pipeline.Cut; predict_pipeline.Color; predict_pipeline.Clarity];
  predict_pipeline.category_code := fun c s =>
    match c with
    | predict_pipeline.Cut =>
        if String.eqb s "Fair" then Some [1%float]
        else if String.eqb s "Good" then Some [2%float]
        else if String.eqb s "Very Good" then Some [3%float]
        else if String.eqb s "Premium" then Some [4%float]
        else if String.eqb s "Ideal" then Some [5%float]
        else None
    | predict_pipeline.Color =>
        if String.eqb s "D" then Some [1%float]
        else if String.eqb s "E" then Some [2%float]
        else if String.eqb s "F" then Some [3%float]
        else if String.eqb s "G" then Some [4%float]
        else if String.eqb s "H" then Some [5%float]
        else if String.eqb s "I" then Some [6%float]
        else if String.eqb s "J" then Some [7%float]
        else None
    | predict_pipeline.Clarity =>
        if String.eqb s "I1" then Some [1%float]
        else if String.eqb s "SI2" then Some [2%float]
        else if String.eqb s "SI1" then Some [3%float]
        else if String.eqb s "VS2" then Some [4%float]
        else if String.eqb s "VS1" then Some [5%float]
        else if String.eqb s "VVS2" then Some [6%float]
        else if String.eqb s "VVS1" then Some [7%float]
        else if String.eqb s "IF" then Some [8%float]
        else None
    | _ => None
    end;
  predict_pipeline.scale := fun _ v => v
|}.

Definition demo_model : predict_pipeline.ModelArtifact := fun fv =>
  match fv with
  | [c; _; _; _; _; _; cu; co; cl] =>
      Ret (c * 4000.125 + cu * 100 + cl * 50 - co * 25)%float
  | _ => Raise (Exn "ValueError" "expected 9 features")
  end.

Definition demo_storage : predict_pipeline.storage :=
  {| predict_pipeline.stored_model := Some demo_model;
     predict_pipeline.stored_encoder := Some demo_encoder |}.

Definition empty_storage : predict_pipeline.storage :=
  {| predict_pipeline.stored_model := None;
     predict_pipeline.stored_encoder := None |}.

(** A request whose cut is not one of the declared options. *)
Definition excellent_cut : GemstoneData := {|
  carat := 1.5; depth := 62.5; table := 58.0;
  x := 7.2; y := 7.1; z := 4.5;
  cut := "Excellent"; color := "G"; clarity := "VS1"
|}.

(** * Properties of the request handler ([src/app/main.py]) *)

(** ** Running the monad *)

Lemma bind_ret_inv {W A B} (c : M W A) (k : A -> M W B) w b w' :
  bind c k w = (Ret b, w') ->
  exists a w1, c w = (Ret a, w1) /\ k a w1 = (Ret b, w').
Proof.
  unfold bind. destruct (c w) as [[a|e|e] w1]; intros H.
  - exists a, w1. split; [reflexivity | exact H].
  - discriminate H.
  - discriminate H.
Qed.

Lemma bind_raise_inv {W A B} (c : M W A) (k : A -> M W B) w e w' :
  bind c k w = (Raise e, w') ->
  c w = (Raise e, w') \/ exists a w1, c w = (Ret a, w1) /\ k a w1 = (Raise e, w').
Proof.
  unfold bind. destruct (c w) as [[a|e0|e0] w1]; intros H.
  - right. exists a, w1. split; [reflexivity | exact H].
  - left. injection H as -> ->. reflexivity.
  - discriminate H.
Qed.

Lemma try_except_ret {W A} (body : M W A) handler w a w' :
  body w = (Ret a, w') -> try_except body handler w = (Ret a, w').
Proof. unfold try_except. intros ->. reflexivity. Qed.

Lemma try_except_raise {W A} (body : M W A) handler w e w' :
  body w = (Raise e, w') -> try_except body handler w = handler e w'.
Proof. unfold try_except. intros ->. reflexivity. Qed.

Lemma try_except_raise_base {W A} (body : M W A) handler w e w' :
  body w = (RaiseBase e, w') -> try_except body handler w = (RaiseBase e, w').
Proof. unfold try_except. intros ->. reflexivity. Qed.

Lemma dict_get_status_success_not_error (d : pydict) :
  dict_get "status" d = Some (PyStr "success") ->
  dict_get "status" d <> Some (PyStr "error").
Proof. intros -> H. discriminate H. Qed.

Section handler_facts.
Context {W CustomDataT DataFrame PipelineT Pred Elem : Type}.
Variable CustomData :
  float -> float -> float -> float -> float -> float ->
  string -> string -> string -> M W CustomDataT.
Variable get_data_as_dataframe : CustomDataT -> M W DataFrame.
Variable PredictPipeline : M W PipelineT.
Variable predict : PipelineT -> DataFrame -> M W Pred.
Variable getitem0 : Pred -> M W Elem.
Variable round2 : Elem -> M W pyval.

Local Notation body :=
  (predict_price_try CustomData get_data_as_dataframe PredictPipeline predict
                     getitem0 round2).
Local Notation handler :=
  (predict_price CustomData get_data_as_dataframe PredictPipeline predict
                 getitem0 round2).

(** The [try] block returns only by running its six calls to the end, and
    then returns the success dictionary built from the rounded [pred[0]]. *)
Lemma predict_price_try_ret g w d w' :
  body g w = (Ret d, w') ->
  exists data w1 pred_df w2 pipeline w3 pred w4 pred0 w5 price,
    CustomData (carat g) (depth g) (table g) (x g) (y g) (z g)
               (cut g) (color g) (clarity g) w = (Ret data, w1)
    /\ get_data_as_dataframe data w1 = (Ret pred_df, w2)
    /\ PredictPipeline w2 = (Ret pipeline, w3)
    /\ predict pipeline pred_df w3 = (Ret pred, w4)
    /\ getitem0 pred w4 = (Ret pred0, w5)
    /\ round2 pred0 w5 = (Ret price, w')
    /\ d = [ ("status", PyStr "success");
             ("predicted_price", price);
             ("input_data", PyDict (GemstoneData_dict g)) ].
Proof.
  unfold predict_price_try. intros H.
  apply bind_ret_inv in H as (data & w1 & H1 & H).
  apply bind_ret_inv in H as (pred_df & w2 & H2 & H).
  apply bind_ret_inv in H as (pipeline & w3 & H3 & H).
  apply bind_ret_inv in H as (pred & w4 & H4 & H).
  apply bind_ret_inv in H as (pred0 & w5 & H5 & H).
  apply bind_ret_inv in H as (price & w6 & H6 & H).
  unfold ret in H. injection H as <- <-.
  exists data, w1, pred_df, w2, pipeline, w3, pred, w4, pred0, w5, price.
  repeat split; assumption.
Qed.

(** The handler returns what the [try] block returned, or the error response
    built from the [Exception] the block raised; an exception that does not
    derive from [Exception] leaves the handler. *)
Lemma predict_price_cases g w :
  (exists d w', body g w = (Ret d, w') /\ handler g w = (Ret d, w'))
  \/ (exists e w', body g w = (Raise e, w')
                   /\ handler g w = (Ret (error_response e), w'))
  \/ (exists e w', body g w = (RaiseBase e, w')
                   /\ handler g w = (RaiseBase e, w')).
Proof.
  unfold predict_price.
  destruct (body g w) as [[d|e|e] w'] eqn:Hb.
  - left. exists d, w'. split; [reflexivity |].
    apply try_except_ret. exact Hb.
  - right. left. exists e, w'. split; [reflexivity |].
    rewrite (try_except_raise _ _ _ _ _ Hb). reflexivity.
  - right. right. exists e, w'. split; [reflexivity |].
    apply try_except_raise_base. exact Hb.
Qed.

(** A response with status "success" comes from the [try] block. *)
Lemma predict_price_success_from_try g w d w' :
  handler g w = (Ret d, w') ->
  dict_get "status" d = Some (PyStr "success") ->
  body g w = (Ret d, w').
Proof.
  intros Hh Hs.
  destruct (predict_price_cases g w)
    as [(d0 & w0 & Hb & Hh') | [(e & w0 & Hb & Hh') | (e & w0 & Hb & Hh')]];
    rewrite Hh in Hh'.
  - injection Hh' as -> ->. exact Hb.
  - injection Hh' as -> ->. discriminate Hs.
  - discriminate Hh'.
Qed.

(** C9, as the handler has it: whatever instance of [Exception] one of the
    calls of the [try] block raises is caught, and the handler then returns
    a dictionary whose "status" is "success" or "error"; it never raises an
    instance of [Exception] itself.  An exception that derives from
    [BaseException] only is not caught by [except Exception]: it leaves the
    handler as the [try] block raised it. *)
Theorem predict_price_catches_Exception g w :
  (forall e w', handler g w <> (Raise e, w'))
  /\ ((exists d w',
         handler g w = (Ret d, w')
         /\ (dict_get "status" d = Some (PyStr "success")
             \/ dict_get "status" d = Some (PyStr "error")))
      \/ (exists e w',
            body g w = (RaiseBase e, w') /\ handler g w = (RaiseBase e, w'))).
Proof.
  destruct (predict_price_cases g w)
    as [(d & w' & Hb & Hh) | [(e & w' & Hb & Hh) | (e & w' & Hb & Hh)]].
  - split; [intros e0 w0 H; rewrite Hh in H; discriminate H |].
    left. exists d, w'. split; [exact Hh |]. left.
    apply predict_price_try_ret in Hb
      as (? & ? & ? & ? & ? & ? & ? & ? & ? & ? & ? & _ & _ & _ & _ & _ & _ & ->).
    reflexivity.
  - split; [intros e0 w0 H; rewrite Hh in H; discriminate H |].
    left. exists (error_response e), w'. split; [exact Hh |]. right. reflexivity.
  - split; [intros e0 w0 H; rewrite Hh in H; discriminate H |].
    right. exists e, w'. split; assumption.
Qed.

(** C10: on every successful call the "input_data" entry of the response is
    the dictionary of the nine fields of the submitted record, unchanged. *)
Theorem predict_price_echoes_input g w d w' :
  handler g w = (Ret d, w') ->
  dict_get "status" d = Some (PyStr "success") ->
  dict_get "input_data" d =
    Some (PyDict [ ("carat", PyFloat (carat g)); ("depth", PyFloat (depth g));
                   ("table", PyFloat (table g)); ("x", PyFloat (x g));
                   ("y", PyFloat (y g)); ("z", PyFloat (z g));
                   ("cut", PyStr (cut g)); ("color", PyStr (color g));
                   ("clarity", PyStr (clarity g)) ]).
Proof.
  intros Hh Hs.
  pose proof (predict_price_success_from_try g w d w' Hh Hs) as Hb.
  apply predict_price_try_ret in Hb
    as (? & ? & ? & ? & ? & ? & ? & ? & ? & ? & ? & _ & _ & _ & _ & _ & _ & ->).
  reflexivity.
Qed.

(** For any implementation of the imported classes, the success response
    carries one entry "predicted_price": the value of [round(pred[0], 2)] for
    the [pred] that [predict] returned. *)
Lemma predict_price_rounds_at_boundary g w d w' :
  handler g w = (Ret d, w') ->
  dict_get "status" d = Some (PyStr "success") ->
  exists data w1 pred_df w2 pipeline w3 pred w4 pred0 w5 price,
    CustomData (carat g) (depth g) (table g) (x g) (y g) (z g)
               (cut g) (color g) (clarity g) w = (Ret data, w1)
    /\ get_data_as_dataframe data w1 = (Ret pred_df, w2)
    /\ PredictPipeline w2 = (Ret pipeline, w3)
    /\ predict pipeline pred_df w3 = (Ret pred, w4)
    /\ getitem0 pred w4 = (Ret pred0, w5)
    /\ round2 pred0 w5 = (Ret price, w')
    /\ d = [ ("status", PyStr "success");
             ("predicted_price", price);
             ("input_data", PyDict (GemstoneData_dict g)) ]
    /\ filter (fun kv => kv.1 = "predicted_price") d = [("predicted_price", price)].
Proof.
  intros Hh Hs.
  pose proof (predict_price_success_from_try g w d w' Hh Hs) as Hb.
  apply predict_price_try_ret in Hb
    as (data & w1 & pred_df & w2 & pipeline & w3 & pred & w4 & pred0 & w5 & price
        & H1 & H2 & H3 & H4 & H5 & H6 & ->).
  exists data, w1, pred_df, w2, pipeline, w3, pred, w4, pred0, w5, price.
  repeat split; assumption || reflexivity.
Qed.

(** C1, as the handler has it: when the [try] block raises [e] the response
    is exactly status "error" with the message "Prediction failed: " followed
    by [str(e)]; its only keys are "status" and "message", and the class of
    [e] is not part of it. *)
Theorem predict_price_failure_is_message g w e w' :
  body g w = (Raise e, w') ->
  handler g w =
    (Ret [ ("status", PyStr "error");
           ("message", PyStr ("Prediction failed: " +:+ exn_str e)) ], w')
  /\ forall d, (handler g w).1 = Ret d ->
       dict_keys d = ["status"; "message"] /\ dict_get "error_kind" d = None.
Proof.
  intros Hb.
  assert (Hh : handler g w = (Ret (error_response e), w')).
  { unfold predict_price. rewrite (try_except_raise _ _ _ _ _ Hb). reflexivity. }
  split; [exact Hh |].
  intros d Hd. rewrite Hh in Hd. simpl in Hd. injection Hd as <-.
  split; reflexivity.
Qed.

End handler_facts.

(** ** The handler on concrete requests *)

(** [round(v, 2)] on floats: ties on the exact binary value go to the even
    digit, and a value just below a tie goes down. *)
Example float_round2_examples :
  float_round2 2.675 = 2.67%float
  /\ float_round2 0.125 = 0.12%float
  /\ float_round2 0.375 = 0.38%float
  /\ float_round2 1234.5678 = 1234.57%float
  /\ float_round2 infinity = infinity.
Proof. repeat split; reflexivity. Qed.

(** A pipeline that returns one raw price: the handler answers with the
    price rounded to two decimals. *)
Example handler_success_example :
  double.handler (Ret [1234.5678%float]) schema_extra_example tt =
    (Ret [ ("status", PyStr "success");
           ("predicted_price", PyFloat 1234.57);
           ("input_data", PyDict (GemstoneData_dict schema_extra_example)) ], tt).
Proof. reflexivity. Qed.

(** A pipeline that returns no row: [pred[0]] raises inside the [try]. *)
Example handler_index_error_example :
  double.handler (Ret []) schema_extra_example tt =
    (Ret [ ("status", PyStr "error");
           ("message", PyStr "Prediction failed: list index out of range") ], tt).
Proof. reflexivity. Qed.

Lemma predict_price_echoes_input_witness :
  double.handler (Ret [1234.5678%float]) schema_extra_example tt =
    (Ret [ ("status", PyStr "success");
           ("predicted_price", PyFloat 1234.57);
           ("input_data", PyDict (GemstoneData_dict schema_extra_example)) ], tt)
  /\ dict_get "input_data"
       [ ("status", PyStr "success");
         ("predicted_price", PyFloat 1234.57);
         ("input_data", PyDict (GemstoneData_dict schema_extra_example)) ] =
     Some (PyDict [ ("carat", PyFloat 1.5); ("depth", PyFloat 62.5);
                    ("table", PyFloat 58.0); ("x", PyFloat 7.2);
                    ("y", PyFloat 7.1); ("z", PyFloat 4.5);
                    ("cut", PyStr "Ideal"); ("color", PyStr "G");
                    ("clarity", PyStr "VS1") ]).
Proof.
  split; [reflexivity |].
  apply (predict_price_echoes_input
           double.CustomData double.get_data_as_dataframe double.PredictPipeline
           (double.predict (Ret [1234.5678%float])) list_getitem0 double.round2
           schema_extra_example tt _ tt); reflexivity.
Defined.

Lemma predict_price_rounds_at_boundary_witness :
  exists data w1 pred_df w2 pipeline w3 pred w4 pred0 w5 price,
    double.CustomData 1.5 62.5 58.0 7.2 7.1 4.5 "Ideal" "G" "VS1" tt = (Ret data, w1)
    /\ double.get_data_as_dataframe data w1 = (Ret pred_df, w2)
    /\ double.PredictPipeline w2 = (Ret pipeline, w3)
    /\ double.predict (Ret [1234.5678%float]) pipeline pred_df w3 = (Ret pred, w4)
    /\ list_getitem0 pred w4 = (Ret pred0, w5)
    /\ double.round2 pred0 w5 = (Ret price, tt)
    /\ [ ("status", PyStr "success");
         ("predicted_price", PyFloat 1234.57);
         ("input_data", PyDict (GemstoneData_dict schema_extra_example)) ] =
       [ ("status", PyStr "success");
         ("predicted_price", price);
         ("input_data", PyDict (GemstoneData_dict schema_extra_example)) ]
    /\ filter (fun kv => kv.1 = "predicted_price")
         [ ("status", PyStr "success");
           ("predicted_price", PyFloat 1234.57);
           ("input_data", PyDict (GemstoneData_dict schema_extra_example)) ] =
       [("predicted_price", price)].
Proof.
  apply (predict_price_rounds_at_boundary
           double.CustomData double.get_data_as_dataframe double.PredictPipeline
           (double.predict (Ret [1234.5678%float])) list_getitem0 double.round2
           schema_extra_example tt
           [ ("status", PyStr "success");
             ("predicted_price", PyFloat 1234.57);
             ("input_data", PyDict (GemstoneData_dict schema_extra_example)) ]
           tt); reflexivity.
Defined.

Lemma predict_price_failure_is_message_witness :
  double.handler (Raise (Exn "ValueError" "unknown category")) schema_extra_example tt =
    (Ret [ ("status", PyStr "error");
           ("message", PyStr "Prediction failed: unknown category") ], tt).
Proof.
  apply (predict_price_failure_is_message
           double.CustomData double.get_data_as_dataframe double.PredictPipeline
           (double.predict (Raise (Exn "ValueError" "unknown category")))
           list_getitem0 double.round2
           schema_extra_example tt (Exn "ValueError" "unknown category") tt).
  reflexivity.
Defined.

(** C1 as stated fails: two failures of different classes give the same
    response, which has no "error_kind" entry to branch on. *)
Lemma predict_price_error_kind_collapsed :
  (double.handler (Raise (Exn "ArtifactLoadError" "unavailable"))
                  schema_extra_example tt).1 =
    Ret [ ("status", PyStr "error");
          ("message", PyStr "Prediction failed: unavailable") ]
  /\ (double.handler (Raise (Exn "InferenceError" "unavailable"))
                     schema_extra_example tt).1 =
       Ret [ ("status", PyStr "error");
             ("message", PyStr "Prediction failed: unavailable") ]
  /\ dict_get "error_kind"
       [ ("status", PyStr "error");
         ("message", PyStr "Prediction failed: unavailable") ] = None.
Proof. repeat split; reflexivity. Qed.

(** C9 as stated fails: when the pipeline raises [SystemExit], which does
    not derive from [Exception], the [except Exception] clause does not
    catch it and the handler returns no dictionary: the exception leaves the
    handler. *)
Lemma predict_price_SystemExit_propagates :
  double.handler (RaiseBase (Exn "SystemExit" "1")) schema_extra_example tt =
    (RaiseBase (Exn "SystemExit" "1"), tt)
  /\ forall d w',
       double.handler (RaiseBase (Exn "SystemExit" "1")) schema_extra_example tt
       <> (Ret d, w').
Proof. split; [reflexivity | intros d w' H; discriminate H]. Qed.

(** ** The option lists of the API and of the client *)

(** C3: for cut, color and clarity, the options that [get_options] declares
    and the options of the client's selection widget are the same set. *)
Theorem options_consistent :
  list_to_set (declared_options "cut")
    =@{gset string} list_to_set (streamlit_app.selectbox_options "cut")
  /\ list_to_set (declared_options "color")
       =@{gset string} list_to_set (streamlit_app.selectbox_options "color")
  /\ list_to_set (declared_options "clarity")
       =@{gset string} list_to_set (streamlit_app.selectbox_options "clarity").
Proof.
  repeat split; apply set_eq; intros s;
    rewrite !elem_of_list_to_set; cbn;
    rewrite !elem_of_cons, !elem_of_nil; tauto.
Qed.

(** The lists differ in order only: each is a permutation of the other. *)
Lemma options_permutation :
  declared_options "cut" ≡ₚ streamlit_app.cut_options
  /\ declared_options "color" ≡ₚ streamlit_app.color_options
  /\ declared_options "clarity" ≡ₚ streamlit_app.clarity_options.
Proof.
  repeat split; cbn.
  - change ["Fair"; "Good"; "Very Good"; "Premium"; "Ideal"]
      with (reverse streamlit_app.cut_options).
    apply reverse_Permutation.
  - reflexivity.
  - change ["I1"; "SI2"; "SI1"; "VS2"; "VS1"; "VVS2"; "VVS1"; "IF"]
      with (reverse streamlit_app.clarity_options).
    apply reverse_Permutation.
Qed.

(** * Properties of the specified pipeline *)

(** ** Acquisition *)

Lemma acquire_loaded w a :
  predict_pipeline.handle w = Some a ->
  predict_pipeline.acquire w = (Ret a, w).
Proof. unfold predict_pipeline.acquire. intros ->. reflexivity. Qed.

Lemma acquire_fresh w m enc :
  predict_pipeline.handle w = None ->
  predict_pipeline.stored_model (predict_pipeline.durable w) = Some m ->
  predict_pipeline.stored_encoder (predict_pipeline.durable w) = Some enc ->
  predict_pipeline.acquire w =
    (Ret (m, enc),
     {| predict_pipeline.durable := predict_pipeline.durable w;
        predict_pipeline.handle := Some (m, enc);
        predict_pipeline.model_reads := S (predict_pipeline.model_reads w);
        predict_pipeline.encoder_reads := S (predict_pipeline.encoder_reads w) |}).
Proof.
  intros Hh Hm He.
  unfold predict_pipeline.acquire. rewrite Hh.
  unfold bind, predict_pipeline.read_model. rewrite Hm.
  unfold predict_pipeline.read_encoder. cbn. rewrite He. reflexivity.
Qed.

Lemma acquire_no_model w :
  predict_pipeline.handle w = None ->
  predict_pipeline.stored_model (predict_pipeline.durable w) = None ->
  predict_pipeline.acquire w =
    (Raise (predict_pipeline.error predict_pipeline.ArtifactLoadError
              "model artifact missing or unreadable"), w).
Proof.
  intros Hh Hm.
  unfold predict_pipeline.acquire. rewrite Hh.
  unfold bind, predict_pipeline.read_model. rewrite Hm. reflexivity.
Qed.

Lemma acquire_no_encoder w m :
  predict_pipeline.handle w = None ->
  predict_pipeline.stored_model (predict_pipeline.durable w) = Some m ->
  predict_pipeline.stored_encoder (predict_pipeline.durable w) = None ->
  predict_pipeline.acquire w =
    (Raise (predict_pipeline.error predict_pipeline.ArtifactLoadError
              "encoder artifact missing or unreadable"),
     {| predict_pipeline.durable := predict_pipeline.durable w;
        predict_pipeline.handle := None;
        predict_pipeline.model_reads := S (predict_pipeline.model_reads w);
        predict_pipeline.encoder_reads := predict_pipeline.encoder_reads w |}).
Proof.
  intros Hh Hm He.
  unfold predict_pipeline.acquire. rewrite Hh.
  unfold bind, predict_pipeline.read_model. rewrite Hm.
  unfold predict_pipeline.read_encoder. cbn. rewrite He, Hh. reflexivity.
Qed.

(** [predict_record] is acquisition followed by the pure [infer]. *)
Lemma predict_record_eq r w :
  predict_pipeline.predict_record r w =
    match predict_pipeline.acquire w with
    | (Ret a, w') => (predict_pipeline.infer a r, w')
    | (Raise e, w') => (Raise e, w')
    | (RaiseBase e, w') => (RaiseBase e, w')
    end.
Proof.
  unfold predict_pipeline.predict_record, bind, predict_pipeline.lift,
    predict_pipeline.infer.
  destruct (predict_pipeline.acquire w) as [[a|e|e] w']; [| reflexivity ..].
  destruct (predict_pipeline.encode a.2 r); reflexivity.
Qed.

(** What a call answers in a given state: a function of the handle and, when
    there is none, of the storage. *)
Definition answer (w : predict_pipeline.world) (r : predict_pipeline.RawRecord)
  : outcome float :=
  match predict_pipeline.handle w with
  | Some a => predict_pipeline.infer a r
  | None =>
      match predict_pipeline.stored_model (predict_pipeline.durable w),
            predict_pipeline.stored_encoder (predict_pipeline.durable w) with
      | Some m, Some enc => predict_pipeline.infer (m, enc) r
      | Some _, None =>
          Raise (predict_pipeline.error predict_pipeline.ArtifactLoadError
                   "encoder artifact missing or unreadable")
      | None, _ =>
          Raise (predict_pipeline.error predict_pipeline.ArtifactLoadError
                   "model artifact missing or unreadable")
      end
  end.

Lemma predict_record_answer r w :
  (predict_pipeline.predict_record r w).1 = answer w r.
Proof.
  rewrite predict_record_eq. unfold answer.
  destruct (predict_pipeline.handle w) as [a|] eqn:Hh.
  - rewrite (acquire_loaded w a Hh). reflexivity.
  - destruct (predict_pipeline.stored_model (predict_pipeline.durable w))
      as [m|] eqn:Hm.
    + destruct (predict_pipeline.stored_encoder (predict_pipeline.durable w))
        as [enc|] eqn:He.
      * rewrite (acquire_fresh w m enc Hh Hm He). reflexivity.
      * rewrite (acquire_no_encoder w m Hh Hm He). reflexivity.
    + rewrite (acquire_no_model w Hh Hm). reflexivity.
Qed.

(** A call in the Loaded state changes nothing in the process state. *)
Lemma predict_record_loaded r w a :
  predict_pipeline.handle w = Some a ->
  predict_pipeline.predict_record r w = (predict_pipeline.infer a r, w).
Proof.
  intros Hh. rewrite predict_record_eq, (acquire_loaded w a Hh). reflexivity.
Qed.

(** A call never writes the storage. *)
Lemma predict_record_durable r w :
  predict_pipeline.durable (predict_pipeline.predict_record r w).2 =
  predict_pipeline.durable w.
Proof.
  rewrite predict_record_eq.
  destruct (predict_pipeline.handle w) as [a|] eqn:Hh.
  - rewrite (acquire_loaded w a Hh). reflexivity.
  - destruct (predict_pipeline.stored_model (predict_pipeline.durable w))
      as [m|] eqn:Hm.
    + destruct (predict_pipeline.stored_encoder (predict_pipeline.durable w))
        as [enc|] eqn:He.
      * rewrite (acquire_fresh w m enc Hh Hm He). reflexivity.
      * rewrite (acquire_no_encoder w m Hh Hm He). reflexivity.
    + rewrite (acquire_no_model w Hh Hm). reflexivity.
Qed.

(** A call keeps what later calls answer. *)
Lemma answer_after_call r' w r :
  answer (predict_pipeline.predict_record r' w).2 r = answer w r.
Proof.
  rewrite predict_record_eq. unfold answer.
  destruct (predict_pipeline.handle w) as [a|] eqn:Hh.
  - rewrite (acquire_loaded w a Hh). cbn. rewrite Hh. reflexivity.
  - destruct (predict_pipeline.stored_model (predict_pipeline.durable w))
      as [m|] eqn:Hm.
    + destruct (predict_pipeline.stored_encoder (predict_pipeline.durable w))
        as [enc|] eqn:He.
      * rewrite (acquire_fresh w m enc Hh Hm He). reflexivity.
      * rewrite (acquire_no_encoder w m Hh Hm He). cbn. rewrite Hm, He.
        reflexivity.
    + rewrite (acquire_no_model w Hh Hm). cbn. rewrite Hh, Hm. reflexivity.
Qed.

(** ** The handler over the pipeline *)

Lemma app_predict_price_eq g w :
  app_predict_price g w =
    match predict_pipeline.predict_record (raw_record g) w with
    | (Ret price, w') =>
        (Ret [ ("status", PyStr "success");
               ("predicted_price", PyFloat (float_round2 price));
               ("input_data", PyDict (GemstoneData_dict g)) ], w')
    | (Raise e, w') => (Ret (error_response e), w')
    | (RaiseBase e, w') => (RaiseBase e, w')
    end.
Proof.
  unfold app_predict_price, predict_price, try_except, predict_price_try.
  unfold bind at 1. unfold predict_pipeline.CustomData, ret at 1.
  unfold bind at 1. unfold predict_pipeline.get_data_as_dataframe, ret at 1.
  unfold bind at 1. unfold predict_pipeline.PredictPipeline, ret at 1.
  unfold bind at 1. cbn [predict_pipeline.predict].
  unfold bind at 1. fold (raw_record g).
  destruct (predict_pipeline.predict_record (raw_record g) w) as [[price|e|e] w'];
    reflexivity.
Qed.

Lemma app_predict_price_world g w :
  (app_predict_price g w).2 =
  (predict_pipeline.predict_record (raw_record g) w).2.
Proof.
  rewrite app_predict_price_eq.
  destruct (predict_pipeline.predict_record (raw_record g) w) as [[price|e|e] w'];
    reflexivity.
Qed.

Lemma serve_durable requests w :
  predict_pipeline.durable (serve requests w) = predict_pipeline.durable w.
Proof.
  revert w. induction requests as [|g rest IH]; intros w; [reflexivity |].
  cbn [serve]. rewrite IH, app_predict_price_world.
  apply predict_record_durable.
Qed.

Lemma serve_answer requests w r :
  answer (serve requests w) r = answer w r.
Proof.
  revert w. induction requests as [|g rest IH]; intros w; [reflexivity |].
  cbn [serve]. rewrite IH, app_predict_price_world.
  apply answer_after_call.
Qed.

(** Once Loaded, the process state is the same after any requests. *)
Lemma serve_loaded requests w a :
  predict_pipeline.handle w = Some a -> serve requests w = w.
Proof.
  intros Hh. induction requests as [|g rest IH]; [reflexivity |].
  cbn [serve]. rewrite app_predict_price_world.
  rewrite (predict_record_loaded _ w a Hh). exact IH.
Qed.

Lemma app_predict_price_outcome g w :
  (app_predict_price g w).1 =
    match (predict_pipeline.predict_record (raw_record g) w).1 with
    | Ret price =>
        Ret [ ("status", PyStr "success");
              ("predicted_price", PyFloat (float_round2 price));
              ("input_data", PyDict (GemstoneData_dict g)) ]
    | Raise e => Ret (error_response e)
    | RaiseBase e => RaiseBase e
    end.
Proof.
  rewrite app_predict_price_eq.
  destruct (predict_pipeline.predict_record (raw_record g) w) as [[price|e|e] w'];
    reflexivity.
Qed.

(** ** Input validation *)





(** With the artifacts loaded the same record is rejected as the claim says. *)
Example excellent_cut_rejected :
  app_predict_price excellent_cut (predict_pipeline.boot demo_storage) =
    (Ret [ ("status", PyStr "error");
           ("message",
            PyStr "Prediction failed: categorical field outside its enumerated set") ],
     {| predict_pipeline.durable := demo_storage;
        predict_pipeline.handle := Some (demo_model, demo_encoder);
        predict_pipeline.model_reads := 1;
        predict_pipeline.encoder_reads := 1 |}).
Proof. reflexivity. Qed.

(** ** Artifact failure *)

Lemma serve_unloaded requests w :
  predict_pipeline.stored_model (predict_pipeline.durable w) = None
  \/ predict_pipeline.stored_encoder (predict_pipeline.durable w) = None ->
  predict_pipeline.handle w = None ->
  predict_pipeline.handle (serve requests w) = None.
Proof.
  revert w. induction requests as [|g rest IH]; intros w Hs Hh; [exact Hh |].
  cbn [serve]. rewrite app_predict_price_world.
  apply IH.
  - rewrite predict_record_durable. exact Hs.
  - rewrite predict_record_eq.
    destruct (predict_pipeline.stored_model (predict_pipeline.durable w))
      as [m|] eqn:Hm.
    + destruct Hs as [Hs | Hs]; [discriminate Hs |].
      rewrite (acquire_no_encoder w m Hh Hm Hs). reflexivity.
    + rewrite (acquire_no_model w Hh Hm). exact Hh.
Qed.

(** C5: in a process whose storage lacks an artifact, every call, after any
    number of earlier calls, fails with one and the same [ArtifactLoadError];
    the component stays Unloaded, and the handler answers with the error
    response, which has no "predicted_price". *)
Theorem artifact_failure_isolation s :
  predict_pipeline.stored_model s = None
  \/ predict_pipeline.stored_encoder s = None ->
  exists e,
    exn_type e = "ArtifactLoadError"
    /\ forall requests g,
         exists w',
           predict_pipeline.predict_record (raw_record g)
             (serve requests (predict_pipeline.boot s)) = (Raise e, w')
           /\ predict_pipeline.handle w' = None
           /\ app_predict_price g (serve requests (predict_pipeline.boot s)) =
              (Ret [ ("status", PyStr "error");
                     ("message", PyStr ("Prediction failed: " +:+ exn_str e)) ], w')
           /\ dict_get "predicted_price"
                [ ("status", PyStr "error");
                  ("message", PyStr ("Prediction failed: " +:+ exn_str e)) ] = None.
Proof.
  intros Hs.
  exists (match predict_pipeline.stored_model s with
          | Some _ => predict_pipeline.error predict_pipeline.ArtifactLoadError
                        "encoder artifact missing or unreadable"
          | None => predict_pipeline.error predict_pipeline.ArtifactLoadError
                      "model artifact missing or unreadable"
          end).
  split; [destruct (predict_pipeline.stored_model s); reflexivity |].
  intros requests g.
  pose proof (serve_durable requests (predict_pipeline.boot s)) as Hd.
  pose proof (serve_unloaded requests (predict_pipeline.boot s) Hs eq_refl) as Hh.
  cbn [predict_pipeline.boot predict_pipeline.durable] in Hd.
  set (w := serve requests (predict_pipeline.boot s)) in *.
  rewrite app_predict_price_eq, predict_record_eq.
  destruct (predict_pipeline.stored_model s) as [m|] eqn:Hm.
  - destruct Hs as [Hs | Hs]; [discriminate Hs |].
    rewrite (acquire_no_encoder w m Hh); [| rewrite Hd; assumption ..].
    eexists. repeat split; reflexivity.
  - rewrite (acquire_no_model w Hh); [| rewrite Hd; assumption].
    eexists. repeat split; try reflexivity. exact Hh.
Qed.

Lemma artifact_failure_isolation_witness :
  exists e,
    exn_type e = "ArtifactLoadError"
    /\ forall requests g,
         exists w',
           predict_pipeline.predict_record (raw_record g)
             (serve requests (predict_pipeline.boot empty_storage)) = (Raise e, w')
           /\ predict_pipeline.handle w' = None
           /\ app_predict_price g (serve requests (predict_pipeline.boot empty_storage)) =
              (Ret [ ("status", PyStr "error");
                     ("message", PyStr ("Prediction failed: " +:+ exn_str e)) ], w')
           /\ dict_get "predicted_price"
                [ ("status", PyStr "error");
                  ("message", PyStr ("Prediction failed: " +:+ exn_str e)) ] = None.
Proof.
  apply (artifact_failure_isolation empty_storage). left. reflexivity.
Defined.

(** Three requests against an empty storage: the same answer each time. *)
Example empty_storage_run :
  app_predict_price schema_extra_example
    (serve [schema_extra_example; excellent_cut] (predict_pipeline.boot empty_storage)) =
    (Ret [ ("status", PyStr "error");
           ("message",
            PyStr "Prediction failed: model artifact missing or unreadable") ],
     predict_pipeline.boot empty_storage).
Proof. reflexivity. Qed.

(** ** Loading once *)

(** The state machine of section 4.2: in a process whose storage holds both
    artifacts, the first request reads each of them once and moves the
    component to Loaded; whatever requests follow, each artifact has been
    read exactly once; and in the Loaded state no call changes the process
    state, so none reads the storage. *)
Lemma artifacts_read_once s m enc g requests :
  predict_pipeline.stored_model s = Some m ->
  predict_pipeline.stored_encoder s = Some enc ->
  predict_pipeline.handle (serve (g :: requests) (predict_pipeline.boot s))
    = Some (m, enc)
  /\ predict_pipeline.model_reads (serve (g :: requests) (predict_pipeline.boot s)) = 1
  /\ predict_pipeline.encoder_reads (serve (g :: requests) (predict_pipeline.boot s)) = 1
  /\ forall w a g',
       predict_pipeline.handle w = Some a ->
       (app_predict_price g' w).2 = w.
Proof.
  intros Hm He.
  assert (Hfirst : (app_predict_price g (predict_pipeline.boot s)).2 =
            {| predict_pipeline.durable := s;
               predict_pipeline.handle := Some (m, enc);
               predict_pipeline.model_reads := 1;
               predict_pipeline.encoder_reads := 1 |}).
  { rewrite app_predict_price_world, predict_record_eq.
    rewrite (acquire_fresh (predict_pipeline.boot s) m enc eq_refl Hm He).
    reflexivity. }
  cbn [serve]. rewrite Hfirst.
  rewrite serve_loaded with (a := (m, enc)) by reflexivity.
  repeat split.
  intros w a g' Hh.
  rewrite app_predict_price_world, (predict_record_loaded _ w a Hh). reflexivity.
Qed.

Lemma artifacts_read_once_witness :
  predict_pipeline.handle
    (serve [schema_extra_example; excellent_cut; schema_extra_example]
           (predict_pipeline.boot demo_storage)) = Some (demo_model, demo_encoder)
  /\ predict_pipeline.model_reads
       (serve [schema_extra_example; excellent_cut; schema_extra_example]
              (predict_pipeline.boot demo_storage)) = 1
  /\ predict_pipeline.encoder_reads
       (serve [schema_extra_example; excellent_cut; schema_extra_example]
              (predict_pipeline.boot demo_storage)) = 1
  /\ forall w a g',
       predict_pipeline.handle w = Some a ->
       (app_predict_price g' w).2 = w.
Proof.
  apply (artifacts_read_once demo_storage demo_model demo_encoder
           schema_extra_example [excellent_cut; schema_extra_example]);
    reflexivity.
Defined.

(** ** Determinism *)

(** C7: a call for a record answers the same at any two moments of a
    process: after the first call, and after any further requests, the call
    returns the identical price (or the identical failure), and the handler
    the identical response. *)
Theorem predict_deterministic g w requests :
  (predict_pipeline.predict_record (raw_record g)
     (serve requests (predict_pipeline.predict_record (raw_record g) w).2)).1 =
  (predict_pipeline.predict_record (raw_record g) w).1
  /\ (app_predict_price g (serve requests (app_predict_price g w).2)).1 =
     (app_predict_price g w).1.
Proof.
  assert (H : (predict_pipeline.predict_record (raw_record g)
     (serve requests (predict_pipeline.predict_record (raw_record g) w).2)).1 =
    (predict_pipeline.predict_record (raw_record g) w).1).
  { rewrite !predict_record_answer, serve_answer. apply answer_after_call. }
  split; [exact H |].
  rewrite !app_predict_price_outcome, app_predict_price_world, H. reflexivity.
Qed.

(** The example request of the API documentation, twice, with the example
    artifacts. *)
Example schema_extra_example_run :
  (app_predict_price schema_extra_example (predict_pipeline.boot demo_storage)).1 =
    Ret [ ("status", PyStr "success");
          ("predicted_price", PyFloat 6650.19);
          ("input_data", PyDict (GemstoneData_dict schema_extra_example)) ]
  /\ (app_predict_price schema_extra_example
        (serve [schema_extra_example] (predict_pipeline.boot demo_storage))).1 =
     Ret [ ("status", PyStr "success");
           ("predicted_price", PyFloat 6650.19);
           ("input_data", PyDict (GemstoneData_dict schema_extra_example)) ].
Proof. split; reflexivity. Qed.

(** * Further properties of the handler ([src/app/main.py]) *)

Lemma bind_raise_iff {W A B} (c : M W A) (k : A -> M W B) w e w' :
  bind c k w = (Raise e, w') <->
  c w = (Raise e, w') \/ exists a w1, c w = (Ret a, w1) /\ k a w1 = (Raise e, w').
Proof.
  split; [apply bind_raise_inv |].
  unfold bind. intros [H | (a & w1 & H & Hk)]; rewrite H.
  - reflexivity.
  - exact Hk.
Qed.

Lemma bind_ret_raise_iff {W A B} (c : M W A) (f : A -> B) w e w' :
  bind c (fun a => ret (f a)) w = (Raise e, w') <-> c w = (Raise e, w').
Proof.
  rewrite bind_raise_iff. split.
  - intros [H | (a & w1 & _ & H)]; [exact H | discriminate H].
  - intros H. left. exact H.
Qed.

Section handler_composition.
Context {W CustomDataT DataFrame PipelineT Pred Elem : Type}.
Variable CustomData :
  float -> float -> float -> float -> float -> float ->
  string -> string -> string -> M W CustomDataT.
Variable get_data_as_dataframe : CustomDataT -> M W DataFrame.
Variable PredictPipeline : M W PipelineT.
Variable predict : PipelineT -> DataFrame -> M W Pred.
Variable getitem0 : Pred -> M W Elem.
Variable round2 : Elem -> M W pyval.

Local Notation body :=
  (predict_price_try CustomData get_data_as_dataframe PredictPipeline predict
                     getitem0 round2).
Local Notation handler :=
  (predict_price CustomData get_data_as_dataframe PredictPipeline predict
                 getitem0 round2).

(** The [try] block raises [e] exactly when one of its six calls raises [e]
    after the calls before it have returned; the state is then the one that
    call left, and no later call is run. *)
Theorem predict_price_error_provenance g w e w' :
  body g w = (Raise e, w') <->
  CustomData (carat g) (depth g) (table g) (x g) (y g) (z g)
             (cut g) (color g) (clarity g) w = (Raise e, w')
  \/ exists data w1,
       CustomData (carat g) (depth g) (table g) (x g) (y g) (z g)
                  (cut g) (color g) (clarity g) w = (Ret data, w1)
       /\ (get_data_as_dataframe data w1 = (Raise e, w')
           \/ exists pred_df w2,
                get_data_as_dataframe data w1 = (Ret pred_df, w2)
                /\ (PredictPipeline w2 = (Raise e, w')
                    \/ exists pipeline w3,
                         PredictPipeline w2 = (Ret pipeline, w3)
                         /\ (predict pipeline pred_df w3 = (Raise e, w')
                             \/ exists pred w4,
                                  predict pipeline pred_df w3 = (Ret pred, w4)
                                  /\ (getitem0 pred w4 = (Raise e, w')
                                      \/ exists pred0 w5,
                                           getitem0 pred w4 = (Ret pred0, w5)
                                           /\ round2 pred0 w5 = (Raise e, w'))))).
Proof.
  unfold predict_price_try.
  rewrite bind_raise_iff.
  do 4 setoid_rewrite bind_raise_iff.
  setoid_rewrite bind_ret_raise_iff.
  reflexivity.
Qed.

(** The handler checks nothing itself: whatever the nine values of the
    record are (a category outside the declared options, a number that is
    not finite), when the six calls return, the response is the success
    dictionary with the rounded price and the record echoed. *)
Theorem predict_price_success_when_calls_return
    g w data w1 pred_df w2 pipeline w3 pred w4 pred0 w5 price w6 :
  CustomData (carat g) (depth g) (table g) (x g) (y g) (z g)
             (cut g) (color g) (clarity g) w = (Ret data, w1) ->
  get_data_as_dataframe data w1 = (Ret pred_df, w2) ->
  PredictPipeline w2 = (Ret pipeline, w3) ->
  predict pipeline pred_df w3 = (Ret pred, w4) ->
  getitem0 pred w4 = (Ret pred0, w5) ->
  round2 pred0 w5 = (Ret price, w6) ->
  handler g w =
    (Ret [ ("status", PyStr "success");
           ("predicted_price", price);
           ("input_data",
            PyDict [ ("carat", PyFloat (carat g)); ("depth", PyFloat (depth g));
                     ("table", PyFloat (table g)); ("x", PyFloat (x g));
                     ("y", PyFloat (y g)); ("z", PyFloat (z g));
                     ("cut", PyStr (cut g)); ("color", PyStr (color g));
                     ("clarity", PyStr (clarity g)) ]) ], w6).
Proof.
  intros H1 H2 H3 H4 H5 H6.
  unfold predict_price, try_except, predict_price_try, bind.
  rewrite H1, H2, H3, H4, H5, H6. reflexivity.
Qed.

End handler_composition.

(** * Properties of the client ([src/streamlit_app.py]) *)

Section client_facts.
Context {W : Type}.
Variable requests_post : string -> pydict -> M W (streamlit_app.Response W).
Variable requests_get : string -> M W (streamlit_app.Response W).
Variable is_RequestException : exn -> bool.
Variable str_other : pyval -> string.

Local Notation client_predict_price :=
  (streamlit_app.predict_price requests_post is_RequestException).
Local Notation predict_url := (streamlit_app.API_URL +:+ "/predict").

(** A response whose status code is not 200 becomes the dictionary with
    status "error" and the message "API Error: " followed by the code; its
    body is not read, so the state is the one [requests.post] left. *)
Theorem client_non_200_is_api_error data w resp w1 :
  requests_post predict_url data w = (Ret resp, w1) ->
  streamlit_app.status_code resp <> 200%Z ->
  client_predict_price data w =
    (Ret (PyDict [ ("status", PyStr "error");
                   ("message",
                    PyStr ("API Error: " +:+ pretty (streamlit_app.status_code resp))) ]),
     w1).
Proof.
  intros Hp Hc.
  unfold streamlit_app.predict_price, try_except_class, bind.
  rewrite Hp. apply Z.eqb_neq in Hc. rewrite Hc. reflexivity.
Qed.

(** A 200 response is answered with whatever its [json()] returns. *)
Lemma client_200_is_body data w resp w1 v w2 :
  requests_post predict_url data w = (Ret resp, w1) ->
  streamlit_app.status_code resp = 200%Z ->
  streamlit_app.json resp w1 = (Ret v, w2) ->
  client_predict_price data w = (Ret v, w2).
Proof.
  intros Hp Hc Hj.
  unfold streamlit_app.predict_price, try_except_class, bind.
  rewrite Hp, Hc, Z.eqb_refl, Hj. reflexivity.
Qed.

(** An exception raised by [requests.post], or by [json()] on a 200
    response, becomes the dictionary with status "error" and the message
    "Connection error: " followed by [str(e)] when it is a
    [RequestException]; any other exception propagates to the caller. *)
Theorem client_exception_handling data w e w' :
  requests_post predict_url data w = (Raise e, w')
  \/ (exists resp w1,
        requests_post predict_url data w = (Ret resp, w1)
        /\ streamlit_app.status_code resp = 200%Z
        /\ streamlit_app.json resp w1 = (Raise e, w')) ->
  client_predict_price data w =
    if is_RequestException e
    then (Ret (PyDict [ ("status", PyStr "error");
                        ("message", PyStr ("Connection error: " +:+ exn_str e)) ]),
          w')
    else (Raise e, w').
Proof.
  intros [Hp | (resp & w1 & Hp & Hc & Hj)];
    unfold streamlit_app.predict_price, try_except_class, bind; rewrite Hp.
  - destruct (is_RequestException e); reflexivity.
  - rewrite Hc, Z.eqb_refl, Hj. destruct (is_RequestException e); reflexivity.
Qed.

(** Every value that [predict_price] returns is the body of a 200 response
    or one of its own two dictionaries, which have status "error", a message
    and nothing else. *)
Theorem client_result_cases data w v w' :
  client_predict_price data w = (Ret v, w') ->
  (exists resp w1,
     requests_post predict_url data w = (Ret resp, w1)
     /\ streamlit_app.status_code resp = 200%Z
     /\ streamlit_app.json resp w1 = (Ret v, w'))
  \/ (exists resp,
        requests_post predict_url data w = (Ret resp, w')
        /\ streamlit_app.status_code resp <> 200%Z
        /\ v = PyDict [ ("status", PyStr "error");
                        ("message",
                         PyStr ("API Error: "
                                +:+ pretty (streamlit_app.status_code resp))) ])
  \/ (exists e,
        is_RequestException e = true
        /\ v = PyDict [ ("status", PyStr "error");
                        ("message", PyStr ("Connection error: " +:+ exn_str e)) ]).
Proof.
  unfold streamlit_app.predict_price, try_except_class, bind.
  destruct (requests_post predict_url data w) as [[resp|e|e] w1] eqn:Hp.
  - destruct (streamlit_app.status_code resp =? 200)%Z eqn:Hc.
    + apply Z.eqb_eq in Hc.
      destruct (streamlit_app.json resp w1) as [[v0|e|e] w2] eqn:Hj.
      * intros H. injection H as <- <-. left. exists resp, w1. auto.
      * destruct (is_RequestException e) eqn:He; intros H; [| discriminate H].
        injection H as <- <-. right. right. exists e. auto.
      * intros H. discriminate H.
    + apply Z.eqb_neq in Hc. intros H. injection H as <- <-.
      right. left. exists resp. auto.
  - destruct (is_RequestException e) eqn:He; intros H; [| discriminate H].
    injection H as <- <-. right. right. exists e. auto.
  - intros H. discriminate H.
Qed.

(** The display of a dictionary whose status is not "success" and that has a
    message: one [st.error] with the message. *)
Lemma show_result_error_branch data d st m log :
  dict_get "status" d = Some st ->
  eq_str st "success" = false ->
  dict_get "message" d = Some m ->
  streamlit_app.show_result str_other data (PyDict d) log =
    (Ret tt,
     (log ++ [(streamlit_app.Page,
               streamlit_app.st_error ("❌ " +:+ streamlit_app.fstr str_other m))])%list).
Proof.
  intros Hs He Hm.
  unfold streamlit_app.show_result, bind, pure. cbn [subscript].
  rewrite Hs, He. cbn [subscript]. rewrite Hm. reflexivity.
Qed.

Local Notation on_predict :=
  (streamlit_app.on_predict requests_post is_RequestException str_other).

(** Pressing the button when the API answers with a status code other than
    200 (a 422 for a rejected body, a 500): one [st.error] with
    "API Error: " and the code is drawn, and nothing is raised. *)
Theorem on_predict_shows_api_error carat depth table x y z cut color clarity
    w log resp w1 :
  requests_post predict_url
    (streamlit_app.input_data carat depth table x y z cut color clarity) w =
    (Ret resp, w1) ->
  streamlit_app.status_code resp <> 200%Z ->
  on_predict carat depth table x y z cut color clarity (w, log) =
    (Ret tt,
     (w1, (log ++ [(streamlit_app.Page,
                    streamlit_app.st_error
                      ("❌ API Error: "
                       +:+ pretty (streamlit_app.status_code resp)))])%list)).
Proof.
  intros Hp Hc.
  unfold streamlit_app.on_predict, streamlit_app.predict_price,
    try_except_class, bind.
  rewrite Hp. apply Z.eqb_neq in Hc. rewrite Hc. unfold ret.
  rewrite (show_result_error_branch _ _ (PyStr "error")
             (PyStr ("API Error: " +:+ pretty (streamlit_app.status_code resp))));
    reflexivity.
Qed.

(** Pressing the button when the request fails with a [RequestException]:
    one [st.error] with "Connection error: " and [str(e)] is drawn, and
    nothing is raised; with any other exception nothing is drawn and the
    exception leaves [main]. *)
Theorem on_predict_request_failure carat depth table x y z cut color clarity
    w log e w' :
  requests_post predict_url
    (streamlit_app.input_data carat depth table x y z cut color clarity) w =
    (Raise e, w') ->
  on_predict carat depth table x y z cut color clarity (w, log) =
    if is_RequestException e
    then (Ret tt,
          (w', (log ++ [(streamlit_app.Page,
                         streamlit_app.st_error
                           ("❌ Connection error: " +:+ exn_str e))])%list))
    else (Raise e, (w', log)).
Proof.
  intros Hp.
  unfold streamlit_app.on_predict, streamlit_app.predict_price,
    try_except_class, bind.
  rewrite Hp.
  destruct (is_RequestException e); [| reflexivity].
  unfold ret.
  rewrite (show_result_error_branch _ _ (PyStr "error")
             (PyStr ("Connection error: " +:+ exn_str e)));
    reflexivity.
Qed.

(** Pressing the button when the API answers 200 with a JSON value that has
    no "status" (a list, or the body of another route): the subscript raises
    and nothing is drawn. *)
Theorem on_predict_without_status carat depth table x y z cut color clarity
    w log resp w1 v w2 e :
  requests_post predict_url
    (streamlit_app.input_data carat depth table x y z cut color clarity) w =
    (Ret resp, w1) ->
  streamlit_app.status_code resp = 200%Z ->
  streamlit_app.json resp w1 = (Ret v, w2) ->
  subscript v "status" = Raise e ->
  on_predict carat depth table x y z cut color clarity (w, log) =
    (Raise e, (w2, log)).
Proof.
  intros Hp Hc Hj Hs. unfold streamlit_app.on_predict.
  rewrite (client_200_is_body _ _ _ _ _ _ Hp Hc Hj).
  unfold streamlit_app.show_result, bind, pure. rewrite Hs. reflexivity.
Qed.

(** The status check never raises, whatever [requests.get] does, and reports
    "API Connected" exactly when the request returned with status code 200;
    the body of the response is not read. *)
Theorem api_status_total w :
  exists call w',
    streamlit_app.api_status requests_get w = (Ret call, w')
    /\ (call = streamlit_app.st_success "✅ API Connected" <->
        exists resp,
          requests_get (streamlit_app.API_URL +:+ "/health") w = (Ret resp, w')
          /\ streamlit_app.status_code resp = 200%Z).
Proof.
  unfold streamlit_app.api_status, try_except_bare, bind, ret.
  destruct (requests_get (streamlit_app.API_URL +:+ "/health") w)
    as [[resp|e|e] w1] eqn:Hg.
  - destruct (streamlit_app.status_code resp =? 200)%Z eqn:Hc.
    + apply Z.eqb_eq in Hc. eexists _, _. split; [reflexivity |].
      split; [intros _; exists resp; auto | reflexivity].
    + apply Z.eqb_neq in Hc. eexists _, _. split; [reflexivity |].
      split; [intros H; discriminate H |].
      intros (resp' & H & Hc'). injection H as <-. contradiction.
  - eexists _, _. split; [reflexivity |].
    split; [intros H; discriminate H | intros (resp & H & _); discriminate H].
  - eexists _, _. split; [reflexivity |].
    split; [intros H; discriminate H | intros (resp & H & _); discriminate H].
Qed.

End client_facts.

(** * The client against the API *)

Section end_to_end.
Context {Ws CustomDataT DataFrame PipelineT Pred Elem : Type}.
Variable CustomData :
  float -> float -> float -> float -> float -> float ->
  string -> string -> string -> M Ws CustomDataT.
Variable get_data_as_dataframe : CustomDataT -> M Ws DataFrame.
Variable PredictPipeline : M Ws PipelineT.
Variable predict : PipelineT -> DataFrame -> M Ws Pred.
Variable getitem0 : Pred -> M Ws Elem.
Variable round2 : Elem -> M Ws pyval.
Context {Wc : Type}.
Variable requests_post : string -> pydict -> M Wc (streamlit_app.Response Wc).
Variable is_RequestException : exn -> bool.
Variable str_other : pyval -> string.

Local Notation body :=
  (predict_price_try CustomData get_data_as_dataframe PredictPipeline predict
                     getitem0 round2).
Local Notation handler :=
  (predict_price CustomData get_data_as_dataframe PredictPipeline predict
                 getitem0 round2).
Local Notation on_predict :=
  (streamlit_app.on_predict requests_post is_RequestException str_other).

(** The display of a dictionary with status "success" and a price: the ten
    calls of the success branch when the price accepts the format, and the
    first five followed by the exception of the format when it does not. *)
Lemma show_result_success_branch data d price log :
  dict_get "status" d = Some (PyStr "success") ->
  dict_get "predicted_price" d = Some price ->
  streamlit_app.show_result str_other data (PyDict d) log =
    match format_price price with
    | Ret text =>
        (Ret tt,
         (log ++
          [ (streamlit_app.Page, streamlit_app.st_markdown "---" false);
            (streamlit_app.Page, streamlit_app.st_columns [1; 1]);
            (streamlit_app.Column 0, streamlit_app.st_subheader "📊 Input Summary");
            (streamlit_app.Column 0, streamlit_app.st_json (PyDict data));
            (streamlit_app.Column 1,
             streamlit_app.st_subheader "💰 Prediction Result");
            (streamlit_app.Column 1,
             streamlit_app.st_markdown
               ("<div class=" +:+ streamlit_app.double_quote +:+ "price-result"
                +:+ streamlit_app.double_quote +:+ ">$" +:+ text +:+ "</div>") true);
            (streamlit_app.Column 1,
             streamlit_app.st_success "Price prediction completed successfully!");
            (streamlit_app.Page, streamlit_app.st_markdown "</div>" true);
            (streamlit_app.Page,
             streamlit_app.st_expander "📋 View Raw API Response");
            (streamlit_app.Expander "📋 View Raw API Response",
             streamlit_app.st_json (PyDict d)) ])%list)
    | Raise e =>
        (Raise e,
         (log ++
          [ (streamlit_app.Page, streamlit_app.st_markdown "---" false);
            (streamlit_app.Page, streamlit_app.st_columns [1; 1]);
            (streamlit_app.Column 0, streamlit_app.st_subheader "📊 Input Summary");
            (streamlit_app.Column 0, streamlit_app.st_json (PyDict data));
            (streamlit_app.Column 1,
             streamlit_app.st_subheader "💰 Prediction Result") ])%list)
    | RaiseBase e =>
        (RaiseBase e,
         (log ++
          [ (streamlit_app.Page, streamlit_app.st_markdown "---" false);
            (streamlit_app.Page, streamlit_app.st_columns [1; 1]);
            (streamlit_app.Column 0, streamlit_app.st_subheader "📊 Input Summary");
            (streamlit_app.Column 0, streamlit_app.st_json (PyDict data));
            (streamlit_app.Column 1,
             streamlit_app.st_subheader "💰 Prediction Result") ])%list)
    end.
Proof.
  intros Hs Hp.
  unfold streamlit_app.show_result, bind, pure, streamlit_app.emit.
  cbn [subscript]. rewrite Hs. cbn [eq_str String.eqb Ascii.eqb Bool.eqb].
  cbn [subscript]. rewrite Hp.
  destruct (format_price price) as [text|e|e]; cbn;
    rewrite <- !app_assoc; reflexivity.
Qed.

(** Pressing the button against the handler of [main.py]: when the API
    returns the handler's response [d] for the record of the nine widget
    values, the client finds every key it reads.  If the handler failed with
    [e], one [st.error] with "Prediction failed: " and [str(e)] is drawn.
    If it succeeded, the echoed "input_data" is the dictionary that the
    client sent, and the success branch is drawn with the price formatted
    by [",.2f"] (or the format's exception is raised when the price is not a
    number). *)
Theorem on_predict_against_handler carat depth table x y z cut color clarity
    ws d ws' w log resp w1 w2 :
  handler (Build_GemstoneData carat depth table x y z cut color clarity) ws =
    (Ret d, ws') ->
  requests_post (streamlit_app.API_URL +:+ "/predict")
    (streamlit_app.input_data carat depth table x y z cut color clarity) w =
    (Ret resp, w1) ->
  streamlit_app.status_code resp = 200%Z ->
  streamlit_app.json resp w1 = (Ret (PyDict d), w2) ->
  (exists e,
     body (Build_GemstoneData carat depth table x y z cut color clarity) ws =
       (Raise e, ws')
     /\ on_predict carat depth table x y z cut color clarity (w, log) =
        (Ret tt,
         (w2, (log ++ [(streamlit_app.Page,
                        streamlit_app.st_error
                          ("❌ Prediction failed: " +:+ exn_str e))])%list)))
  \/ (exists price,
        d = [ ("status", PyStr "success");
              ("predicted_price", price);
              ("input_data",
               PyDict (streamlit_app.input_data carat depth table x y z
                                                cut color clarity)) ]
        /\ on_predict carat depth table x y z cut color clarity (w, log) =
           match format_price price with
           | Ret text =>
               (Ret tt,
                (w2,
                 (log ++
                  [ (streamlit_app.Page, streamlit_app.st_markdown "---" false);
                    (streamlit_app.Page, streamlit_app.st_columns [1; 1]);
                    (streamlit_app.Column 0,
                     streamlit_app.st_subheader "📊 Input Summary");
                    (streamlit_app.Column 0,
                     streamlit_app.st_json
                       (PyDict (streamlit_app.input_data carat depth table x y z
                                                         cut color clarity)));
                    (streamlit_app.Column 1,
                     streamlit_app.st_subheader "💰 Prediction Result");
                    (streamlit_app.Column 1,
                     streamlit_app.st_markdown
                       ("<div class=" +:+ streamlit_app.double_quote
                        +:+ "price-result" +:+ streamlit_app.double_quote
                        +:+ ">$" +:+ text +:+ "</div>") true);
                    (streamlit_app.Column 1,
                     streamlit_app.st_success
                       "Price prediction completed successfully!");
                    (streamlit_app.Page, streamlit_app.st_markdown "</div>" true);
                    (streamlit_app.Page,
                     streamlit_app.st_expander "📋 View Raw API Response");
                    (streamlit_app.Expander "📋 View Raw API Response",
                     streamlit_app.st_json (PyDict d)) ])%list))
           | Raise e' =>
               (Raise e',
                (w2,
                 (log ++
                  [ (streamlit_app.Page, streamlit_app.st_markdown "---" false);
                    (streamlit_app.Page, streamlit_app.st_columns [1; 1]);
                    (streamlit_app.Column 0,
                     streamlit_app.st_subheader "📊 Input Summary");
                    (streamlit_app.Column 0,
                     streamlit_app.st_json
                       (PyDict (streamlit_app.input_data carat depth table x y z
                                                         cut color clarity)));
                    (streamlit_app.Column 1,
                     streamlit_app.st_subheader "💰 Prediction Result") ])%list))

           | RaiseBase e' =>
               (RaiseBase e',
                (w2,
                 (log ++
                  [ (streamlit_app.Page, streamlit_app.st_markdown "---" false);
                    (streamlit_app.Page, streamlit_app.st_columns [1; 1]);
                    (streamlit_app.Column 0,
                     streamlit_app.st_subheader "📊 Input Summary");
                    (streamlit_app.Column 0,
                     streamlit_app.st_json
                       (PyDict (streamlit_app.input_data carat depth table x y z
                                                         cut color clarity)));
                    (streamlit_app.Column 1,
                     streamlit_app.st_subheader "💰 Prediction Result") ])%list))
           end).
Proof.
  intros Hh Hp Hc Hj.
  assert (Hclient :
    streamlit_app.predict_price requests_post is_RequestException
      (streamlit_app.input_data carat depth table x y z cut color clarity) w =
    (Ret (PyDict d), w2)).
  { unfold streamlit_app.predict_price, try_except_class, bind.
    rewrite Hp, Hc, Z.eqb_refl, Hj. reflexivity. }
  destruct (predict_price_cases CustomData get_data_as_dataframe PredictPipeline
              predict getitem0 round2
              (Build_GemstoneData carat depth table x y z cut color clarity) ws)
    as [(d0 & w0 & Hb & Hh') | [(e & w0 & Hb & Hh') | (e & w0 & Hb & Hh')]];
    rewrite Hh in Hh'; [| | discriminate Hh']; injection Hh' as -> ->.
  - right.
    apply predict_price_try_ret in Hb
      as (? & ? & ? & ? & ? & ? & ? & ? & ? & ? & price
          & _ & _ & _ & _ & _ & _ & ->).
    exists price. split; [reflexivity |].
    unfold streamlit_app.on_predict. rewrite Hclient.
    rewrite (show_result_success_branch _ _ price); [| reflexivity ..].
    destruct (format_price price); reflexivity.
  - left. exists e. split; [exact Hb |].
    unfold streamlit_app.on_predict. rewrite Hclient.
    unfold streamlit_app.show_result, bind, pure, streamlit_app.emit.
    reflexivity.
Qed.

End end_to_end.

(** Run against a network that records every request, whatever the network
    answers: [predict_price] makes exactly one request, a POST to the route
    "/predict" of the application on the port that [uvicorn.run] listens on;
    the status check makes exactly one, a GET to the route "/health"; and the
    button branch of [main] makes the one request of [predict_price].  The
    client therefore requests no other route ("/", "/options"). *)
Theorem client_requests_hit_routes :
  (POST, "/predict") ∈ routes
  /\ (GET, "/health") ∈ routes
  /\ (forall answer is_RequestException data made,
        (streamlit_app.predict_price (recorder.requests_post answer)
           is_RequestException data made).2 =
        (made ++ [(POST, "http://localhost:" +:+ pretty uvicorn_port
                         +:+ "/predict")])%list)
  /\ (forall answer made,
        (streamlit_app.api_status (recorder.requests_get answer) made).2 =
        (made ++ [(GET, "http://localhost:" +:+ pretty uvicorn_port
                        +:+ "/health")])%list)
  /\ (forall answer is_RequestException str_other
             carat depth table x y z cut color clarity made log,
        (streamlit_app.on_predict (recorder.requests_post answer)
           is_RequestException str_other
           carat depth table x y z cut color clarity (made, log)).2.1 =
        (made ++ [(POST, "http://localhost:" +:+ pretty uvicorn_port
                         +:+ "/predict")])%list).
Proof.
  assert (Hpost : forall answer is_RequestException data made,
    (streamlit_app.predict_price (recorder.requests_post answer)
       is_RequestException data made).2 =
    (made ++ [(POST, "http://localhost:" +:+ pretty uvicorn_port
                     +:+ "/predict")])%list).
  { intros answer is_RequestException data made.
    unfold streamlit_app.predict_price, try_except_class, bind,
      recorder.requests_post, recorder.respond.
    destruct (answer (streamlit_app.API_URL +:+ "/predict") data)
      as [[code body]|e|e]; cbn [snd fst].
    - cbn [streamlit_app.status_code streamlit_app.json].
      destruct (code =? 200)%Z; [| reflexivity].
      unfold pure. destruct body as [v|e|e]; [reflexivity | | reflexivity].
      destruct (is_RequestException e); reflexivity.
    - destruct (is_RequestException e); reflexivity.
    - reflexivity. }
  split; [apply list_elem_of_here |].
  split; [do 2 apply list_elem_of_further; apply list_elem_of_here |].
  split; [exact Hpost |].
  split.
  - intros answer made.
    unfold streamlit_app.api_status, try_except_bare, bind,
      recorder.requests_get, recorder.respond.
    destruct (answer (streamlit_app.API_URL +:+ "/health"))
      as [[code body]|e|e]; cbn [snd fst]; [| reflexivity ..].
    cbn [streamlit_app.status_code]. destruct (code =? 200)%Z; reflexivity.
  - intros answer is_RequestException str_other
           carat depth table x y z cut color clarity made log.
    specialize (Hpost answer is_RequestException
                  (streamlit_app.input_data carat depth table x y z
                                            cut color clarity) made).
    unfold streamlit_app.on_predict.
    destruct (streamlit_app.predict_price (recorder.requests_post answer)
                is_RequestException
                (streamlit_app.input_data carat depth table x y z
                                          cut color clarity) made)
      as [[result|e|e] made'];
      cbn [snd] in Hpost; subst made'; [| reflexivity ..].
    destruct (streamlit_app.show_result str_other _ result log); reflexivity.
Qed.

(** ** Concrete exchanges *)

(** [format(v, ",.2f")] on floats. *)
Example format_comma_2f_examples :
  format_comma_2f 1234.5678 = "1,234.57"
  /\ format_comma_2f 999.999 = "1,000.00"
  /\ format_comma_2f 0.125 = "0.12"
  /\ format_comma_2f (-0.001) = "-0.00"
  /\ format_comma_2f 1e6 = "1,000,000.00"
  /\ format_comma_2f nan = "nan".
Proof. repeat split; reflexivity. Qed.

Lemma predict_price_success_when_calls_return_witness :
  double.handler (Ret [1234.5678%float]) excellent_cut tt =
    (Ret [ ("status", PyStr "success");
           ("predicted_price", PyFloat 1234.57);
           ("input_data",
            PyDict [ ("carat", PyFloat 1.5); ("depth", PyFloat 62.5);
                     ("table", PyFloat 58.0); ("x", PyFloat 7.2);
                     ("y", PyFloat 7.1); ("z", PyFloat 4.5);
                     ("cut", PyStr "Excellent"); ("color", PyStr "G");
                     ("clarity", PyStr "VS1") ]) ], tt).
Proof.
  apply (predict_price_success_when_calls_return
           double.CustomData double.get_data_as_dataframe double.PredictPipeline
           (double.predict (Ret [1234.5678%float])) list_getitem0 double.round2
           excellent_cut tt excellent_cut tt [excellent_cut] tt tt tt
           [1234.5678%float] tt 1234.5678%float tt (PyFloat 1234.57) tt);
    reflexivity.
Defined.

Lemma client_non_200_is_api_error_witness :
  streamlit_app.predict_price
    (client_double.requests_post (Ret (client_double.response 422 (Ret (PyList [])))))
    client_double.is_RequestException
    (GemstoneData_dict schema_extra_example) tt =
    (Ret (PyDict [ ("status", PyStr "error");
                   ("message", PyStr "API Error: 422") ]), tt).
Proof.
  apply (client_non_200_is_api_error
           (client_double.requests_post
              (Ret (client_double.response 422 (Ret (PyList [])))))
           client_double.is_RequestException
           (GemstoneData_dict schema_extra_example) tt
           (client_double.response 422 (Ret (PyList []))) tt).
  - reflexivity.
  - simpl. lia.
Defined.

Lemma client_exception_handling_witness :
  streamlit_app.predict_price
    (client_double.requests_post (Raise (Exn "ConnectionError" "connection refused")))
    client_double.is_RequestException
    (GemstoneData_dict schema_extra_example) tt =
    (Ret (PyDict [ ("status", PyStr "error");
                   ("message", PyStr "Connection error: connection refused") ]), tt)
  /\ streamlit_app.predict_price
       (client_double.requests_post
          (Ret (client_double.response 200 (Raise (Exn "ValueError" "not JSON")))))
       client_double.is_RequestException
       (GemstoneData_dict schema_extra_example) tt =
     (Raise (Exn "ValueError" "not JSON"), tt).
Proof.
  split.
  - apply (client_exception_handling
             (client_double.requests_post
                (Raise (Exn "ConnectionError" "connection refused")))
             client_double.is_RequestException
             (GemstoneData_dict schema_extra_example) tt
             (Exn "ConnectionError" "connection refused") tt).
    left. reflexivity.
  - apply (client_exception_handling
             (client_double.requests_post
                (Ret (client_double.response 200 (Raise (Exn "ValueError" "not JSON")))))
             client_double.is_RequestException
             (GemstoneData_dict schema_extra_example) tt
             (Exn "ValueError" "not JSON") tt).
    right. eexists _, _. repeat split; reflexivity.
Defined.

Lemma client_result_cases_witness :
  (exists resp w1,
     client_double.requests_post
       (Ret (client_double.response 200 (Ret (PyDict health_check))))
       (streamlit_app.API_URL +:+ "/predict") [] tt = (Ret resp, w1)
     /\ streamlit_app.status_code resp = 200%Z
     /\ streamlit_app.json resp w1 = (Ret (PyDict health_check), tt))
  \/ (exists resp,
        client_double.requests_post
          (Ret (client_double.response 200 (Ret (PyDict health_check))))
          (streamlit_app.API_URL +:+ "/predict") [] tt = (Ret resp, tt)
        /\ streamlit_app.status_code resp <> 200%Z
        /\ PyDict health_check =
           PyDict [ ("status", PyStr "error");
                    ("message",
                     PyStr ("API Error: "
                            +:+ pretty (streamlit_app.status_code resp))) ])
  \/ (exists e,
        client_double.is_RequestException e = true
        /\ PyDict health_check =
           PyDict [ ("status", PyStr "error");
                    ("message", PyStr ("Connection error: " +:+ exn_str e)) ]).
Proof.
  apply (client_result_cases
           (client_double.requests_post
              (Ret (client_double.response 200 (Ret (PyDict health_check)))))
           client_double.is_RequestException [] tt (PyDict health_check) tt).
  reflexivity.
Defined.

Lemma on_predict_shows_api_error_witness :
  streamlit_app.on_predict
    (client_double.requests_post (Ret (client_double.response 422 (Ret (PyList [])))))
    client_double.is_RequestException client_double.str_other
    1.5 62.5 58.0 7.2 7.1 4.5 "Ideal" "G" "VS1" (tt, []) =
    (Ret tt, (tt, [(streamlit_app.Page, streamlit_app.st_error "❌ API Error: 422")])).
Proof.
  apply (on_predict_shows_api_error
           (client_double.requests_post
              (Ret (client_double.response 422 (Ret (PyList [])))))
           client_double.is_RequestException client_double.str_other
           1.5 62.5 58.0 7.2 7.1 4.5 "Ideal" "G" "VS1" tt []
           (client_double.response 422 (Ret (PyList []))) tt).
  - reflexivity.
  - simpl. lia.
Defined.

Lemma on_predict_request_failure_witness :
  streamlit_app.on_predict
    (client_double.requests_post (Raise (Exn "ConnectionError" "connection refused")))
    client_double.is_RequestException client_double.str_other
    1.5 62.5 58.0 7.2 7.1 4.5 "Ideal" "G" "VS1" (tt, []) =
    (Ret tt,
     (tt, [(streamlit_app.Page,
            streamlit_app.st_error "❌ Connection error: connection refused")])).
Proof.
  apply (on_predict_request_failure
           (client_double.requests_post
              (Raise (Exn "ConnectionError" "connection refused")))
           client_double.is_RequestException client_double.str_other
           1.5 62.5 58.0 7.2 7.1 4.5 "Ideal" "G" "VS1" tt []
           (Exn "ConnectionError" "connection refused") tt).
  reflexivity.
Defined.

Lemma on_predict_without_status_witness :
  streamlit_app.on_predict
    (client_double.requests_post
       (Ret (client_double.response 200 (Ret (PyDict root)))))
    client_double.is_RequestException client_double.str_other
    1.5 62.5 58.0 7.2 7.1 4.5 "Ideal" "G" "VS1" (tt, []) =
    (Raise (Exn "KeyError" "'status'"), (tt, [])).
Proof.
  apply (on_predict_without_status
           (client_double.requests_post
              (Ret (client_double.response 200 (Ret (PyDict root)))))
           client_double.is_RequestException client_double.str_other
           1.5 62.5 58.0 7.2 7.1 4.5 "Ideal" "G" "VS1" tt []
           (client_double.response 200 (Ret (PyDict root))) tt (PyDict root) tt);
    reflexivity.
Defined.

(** The response of the handler for a raw price of 1234.5678, as the client
    receives it. *)
Definition example_success_response : pydict :=
  [ ("status", PyStr "success");
    ("predicted_price", PyFloat 1234.57);
    ("input_data", PyDict (GemstoneData_dict schema_extra_example)) ].

Lemma on_predict_against_handler_witness :
  streamlit_app.on_predict
    (client_double.requests_post
       (Ret (client_double.response 200 (Ret (PyDict example_success_response)))))
    client_double.is_RequestException client_double.str_other
    1.5 62.5 58.0 7.2 7.1 4.5 "Ideal" "G" "VS1" (tt, []) =
    (Ret tt,
     (tt,
      [ (streamlit_app.Page, streamlit_app.st_markdown "---" false);
        (streamlit_app.Page, streamlit_app.st_columns [1; 1]);
        (streamlit_app.Column 0, streamlit_app.st_subheader "📊 Input Summary");
        (streamlit_app.Column 0,
         streamlit_app.st_json (PyDict (GemstoneData_dict schema_extra_example)));
        (streamlit_app.Column 1, streamlit_app.st_subheader "💰 Prediction Result");
        (streamlit_app.Column 1,
         streamlit_app.st_markdown
           ("<div class=" +:+ streamlit_app.double_quote +:+ "price-result"
            +:+ streamlit_app.double_quote +:+ ">$1,234.57</div>") true);
        (streamlit_app.Column 1,
         streamlit_app.st_success "Price prediction completed successfully!");
        (streamlit_app.Page, streamlit_app.st_markdown "</div>" true);
        (streamlit_app.Page, streamlit_app.st_expander "📋 View Raw API Response");
        (streamlit_app.Expander "📋 View Raw API Response",
         streamlit_app.st_json (PyDict example_success_response)) ])).
Proof.
  destruct (on_predict_against_handler
              double.CustomData double.get_data_as_dataframe double.PredictPipeline
              (double.predict (Ret [1234.5678%float])) list_getitem0 double.round2
              (client_double.requests_post
                 (Ret (client_double.response 200
                         (Ret (PyDict example_success_response)))))
              client_double.is_RequestException client_double.str_other
              1.5 62.5 58.0 7.2 7.1 4.5 "Ideal" "G" "VS1"
              tt example_success_response tt tt []
              (client_double.response 200 (Ret (PyDict example_success_response)))
              tt tt eq_refl eq_refl eq_refl eq_refl)
    as [(e & Hb & _) | (price & Hd & H)].
  - discriminate Hb.
  - injection Hd as <-. exact H.
Defined.

(** * The price of a success response *)

(** ** [round(v, 2)] rounds to two decimals *)

Lemma round_half_even_nearest a e :
  nearest_ties_even a e (round_half_even a e).
Proof.
  unfold nearest_ties_even, round_half_even.
  destruct (0 <=? e)%Z eqn:He.
  - apply Z.leb_le in He. apply Z.shiftl_mul_pow2. exact He.
  - apply Z.leb_gt in He.
    rewrite Z.shiftl_mul_pow2 by lia. rewrite Z.mul_1_l.
    assert (Hd : (0 < 2 ^ (- e))%Z) by (apply Z.pow_pos_nonneg; lia).
    set (d := (2 ^ (- e))%Z) in *.
    pose proof (Z.div_mod a d ltac:(lia)) as Hdm.
    pose proof (Z.mod_pos_bound a d Hd) as Hr.
    set (q := (a / d)%Z) in *. set (r := (a mod d)%Z) in *.
    destruct (Z.compare_spec (2 * r) d) as [Heq | Hlt | Hgt].
    + destruct (Z.even q) eqn:Hq.
      * split; [nia |]. intros _. exact Hq.
      * split; [nia |]. intros _.
        rewrite Z.even_add, Hq. reflexivity.
    + split; [nia |]. intros Habs. exfalso. nia.
    + split; [nia |]. intros Habs. exfalso. nia.
Qed.

Lemma round_half_even_nonneg a e :
  (0 <= a)%Z -> (0 <= round_half_even a e)%Z.
Proof.
  intros Ha. unfold round_half_even.
  destruct (0 <=? e)%Z eqn:He.
  - apply Z.shiftl_nonneg. exact Ha.
  - apply Z.leb_gt in He.
    rewrite Z.shiftl_mul_pow2 by lia. rewrite Z.mul_1_l.
    assert (Hd : (0 < 2 ^ (- e))%Z) by (apply Z.pow_pos_nonneg; lia).
    pose proof (Z.div_pos a _ Ha Hd) as Hq.
    destruct (2 * (a mod 2 ^ (- e)) ?= 2 ^ (- e))%Z;
      [destruct (Z.even _) | |]; lia.
Qed.

(** [float_round2] meets the specification of rounding to two decimals. *)
Lemma float_round2_rounded_to_cents v :
  rounded_to_cents v (float_round2 v).
Proof.
  unfold rounded_to_cents, float_round2.
  destruct (Prim2SF v) as [s | s | | s m e]; try reflexivity.
  exists (round_half_even (Z.pos m * 100) e).
  pose proof (round_half_even_nonneg (Z.pos m * 100) e ltac:(lia)) as Hn.
  split; [exact Hn |]. split; [apply round_half_even_nearest |].
  destruct (round_half_even (Z.pos m * 100) e) as [|n|n]; cbn [signed_integer].
  - cbn [SFdiv]. rewrite xorb_false_r. reflexivity.
  - reflexivity.
  - lia.
Qed.

(** ** The handler over the specified pipeline *)

(** C4: a success response of the handler over the specified pipeline holds
    one price, a float, under "predicted_price".  The pipeline returns the
    output [raw] of the Model Artifact on the encoded record as it is, with
    no clamping, rounding or other change; the price of the response is
    [round(raw, 2)], that is [raw] rounded to two decimals, and that
    rounding is applied by the request handler. *)
Theorem predict_price_is_raw_output_rounded g w d w' :
  app_predict_price g w = (Ret d, w') ->
  dict_get "status" d = Some (PyStr "success") ->
  exists a fv raw price,
    predict_pipeline.handle w' = Some a
    /\ predict_pipeline.encode a.2 (raw_record g) = Ret fv
    /\ a.1 fv = Ret raw
    /\ predict_pipeline.predict_record (raw_record g) w = (Ret raw, w')
    /\ predict_pipeline.predict tt [raw_record g] w = (Ret [raw], w')
    /\ d = [ ("status", PyStr "success");
             ("predicted_price", PyFloat price);
             ("input_data", PyDict (GemstoneData_dict g)) ]
    /\ filter (fun kv => kv.1 = "predicted_price") d = [("predicted_price", PyFloat price)]
    /\ price = float_round2 raw
    /\ rounded_to_cents raw price.
Proof.
  intros Hh Hs.
  rewrite app_predict_price_eq in Hh.
  destruct (predict_pipeline.predict_record (raw_record g) w)
    as [[raw|e|e] w1] eqn:Hp; [| | discriminate Hh].
  2:{ injection Hh as <- <-. discriminate Hs. }
  injection Hh as <- <-.
  assert (Hacq : exists a,
    predict_pipeline.handle w1 = Some a
    /\ predict_pipeline.infer a (raw_record g) = Ret raw).
  { rewrite predict_record_eq in Hp.
    destruct (predict_pipeline.handle w) as [a|] eqn:Hh.
    - rewrite (acquire_loaded w a Hh) in Hp. injection Hp as Hi <-.
      exists a. split; assumption.
    - destruct (predict_pipeline.stored_model (predict_pipeline.durable w))
        as [m|] eqn:Hm.
      + destruct (predict_pipeline.stored_encoder (predict_pipeline.durable w))
          as [enc|] eqn:He.
        * rewrite (acquire_fresh w m enc Hh Hm He) in Hp.
          injection Hp as Hi <-. exists (m, enc). split; [reflexivity | exact Hi].
        * rewrite (acquire_no_encoder w m Hh Hm He) in Hp. discriminate Hp.
      + rewrite (acquire_no_model w Hh Hm) in Hp. discriminate Hp. }
  destruct Hacq as (a & Ha & Hi).
  unfold predict_pipeline.infer in Hi.
  destruct (predict_pipeline.encode a.2 (raw_record g)) as [fv|e|e] eqn:Henc;
    [| discriminate Hi ..].
  unfold predict_pipeline.invoke in Hi.
  destruct (a.1 fv) as [y|e|e] eqn:Hm; [| discriminate Hi ..].
  injection Hi as ->.
  exists a, fv, raw, (float_round2 raw).
  split; [exact Ha |]. split; [exact Henc |]. split; [exact Hm |].
  split; [reflexivity |].
  split.
  { cbn [predict_pipeline.predict]. unfold bind. rewrite Hp. reflexivity. }
  split; [reflexivity |]. split; [reflexivity |]. split; [reflexivity |].
  apply float_round2_rounded_to_cents.
Qed.

Lemma predict_price_is_raw_output_rounded_witness :
  exists a fv raw price,
    predict_pipeline.handle
      (app_predict_price schema_extra_example (predict_pipeline.boot demo_storage)).2
      = Some a
    /\ predict_pipeline.encode a.2 (raw_record schema_extra_example) = Ret fv
    /\ a.1 fv = Ret raw
    /\ predict_pipeline.predict_record (raw_record schema_extra_example)
         (predict_pipeline.boot demo_storage) =
       (Ret raw,
        (app_predict_price schema_extra_example (predict_pipeline.boot demo_storage)).2)
    /\ predict_pipeline.predict tt [raw_record schema_extra_example]
         (predict_pipeline.boot demo_storage) =
       (Ret [raw],
        (app_predict_price schema_extra_example (predict_pipeline.boot demo_storage)).2)
    /\ [ ("status", PyStr "success");
         ("predicted_price", PyFloat 6650.19);
         ("input_data", PyDict (GemstoneData_dict schema_extra_example)) ] =
       [ ("status", PyStr "success");
         ("predicted_price", PyFloat price);
         ("input_data", PyDict (GemstoneData_dict schema_extra_example)) ]
    /\ filter (fun kv => kv.1 = "predicted_price")
         [ ("status", PyStr "success");
           ("predicted_price", PyFloat 6650.19);
           ("input_data", PyDict (GemstoneData_dict schema_extra_example)) ] =
       [("predicted_price", PyFloat price)]
    /\ price = float_round2 raw
    /\ rounded_to_cents raw price.
Proof.
  apply (predict_price_is_raw_output_rounded schema_extra_example
           (predict_pipeline.boot demo_storage)
           [ ("status", PyStr "success");
             ("predicted_price", PyFloat 6650.19);
             ("input_data", PyDict (GemstoneData_dict schema_extra_example)) ]
           (app_predict_price schema_extra_example
              (predict_pipeline.boot demo_storage)).2);
    reflexivity.
Defined.

(** The raw output of the example model on the example record is not a
    two-decimal value: the pipeline hands it on and the handler rounds it. *)
Example raw_output_is_not_rounded_by_pipeline :
  (predict_pipeline.predict_record (raw_record schema_extra_example)
     (predict_pipeline.boot demo_storage)).1 = Ret 6650.1875%float
  /\ float_round2 6650.1875 = 6650.19%float
  /\ float_round2 6650.1875 <> 6650.1875%float.
Proof.
  repeat split; try reflexivity.
  intros H. apply (f_equal (fun v => PrimFloat.eqb v 6650.1875)) in H.
  vm_compute in H. discriminate H.
Qed.
